(** * Lake surface heat flux: flux formulas, heat content and budget closure

    A shallow embedding of [lake_sheatbalance.py] and of the numerical part
    of [main.py].  Floating-point numbers are read as real numbers, except in
    [LhbFloat], which evaluates the vapor pressure on binary64 numbers; the
    missing value (NaN) of a pandas series is [None]. *)

From Stdlib Require Import Floats Reals Lra.
From stdpp Require Import gmap strings list fin_maps.

Set Warnings "-inexact-float".

Open Scope R_scope.

(** ** Values *)

(** One entry of a series: a number, or [None] for the missing value NaN.
    An infinite result (a division by zero) is not a real number and is
    recorded as [None] as well. *)
Abbreviation cell := (option R).

#[global] Instance R_eq_dec : EqDecision R := Req_dec_T.
#[global] Instance Rlt_decision (x y : R) : Decision (x < y) := Rlt_dec x y.

Definition isna (c : cell) : bool :=
  match c with None => true | Some _ => false end.

Definition lift1 (f : R -> R) (a : cell) : cell := f <$> a.

Definition lift2 (f : R -> R -> R) (a b : cell) : cell :=
  match a, b with
  | Some x, Some y => Some (f x y)
  | _, _ => None
  end.

Definition cdiv (a b : cell) : cell :=
  match a, b with
  | Some x, Some y => if decide (y = 0) then None else Some (x / y)
  | _, _ => None
  end.

(** [rad > 5] on one entry: a comparison with NaN is false. *)
Definition cgt (a : cell) (k : R) : bool :=
  match a with Some x => bool_decide (k < x) | None => false end.

Definition lift3 (f : R -> R -> R -> R) (a b c : cell) : cell :=
  match a, b, c with
  | Some x, Some y, Some z => Some (f x y z)
  | _, _, _ => None
  end.

(** [x ** (1 / 7)]: numpy gives NaN for a negative base. *)
Definition root7 (a : cell) : cell :=
  match a with
  | Some x =>
      if decide (0 < x) then Some (Rpower x (1 / 7))
      else if decide (x = 0) then Some 0 else None
  | None => None
  end.

(** ** The flux formulas of [lake_sheatbalance.py], on one sample *)

Module Lhb.

(** [atm_emmissivity]:
    [emi = A1 * (1 + A2 * cc**2) * A3 * (ew / atemp_k) ** (1 / 7)]. *)
Definition atm_emmissivity (temp cc ew : R) : cell :=
  let A1 := 0.98 in
  let A2 := 0.17 in
  let A3 := 1.24 in
  let atemp_k := temp + 273.15 in
  lift1 (fun p => A1 * (1 + A2 * cc ^ 2) * A3 * p)
        (root7 (cdiv (Some ew) (Some atemp_k))).

(** [sat_vaporpress]: saturated vapor pressure in hPa. *)
Definition sat_vaporpress (temp : R) : R :=
  let A1 := 6.112 in
  let A2 := 17.62 in
  let A3 := 243.12 in
  A1 * exp ((A2 * temp) / (A3 + temp)).

(** [vapor_pressure]: [ew = rh * es/100]. *)
Definition vapor_pressure (temp rh : R) : R :=
  let es := sat_vaporpress temp in
  rh * es / 100.

(** [transfer_function]: [f1 = A1 + A2 * wind10 + A3 * (wtemp - temp)]. *)
Definition transfer_function (wind10 wtemp temp : R) : R :=
  let A1 := 4.8 in
  let A2 := 1.98 in
  let A3 := 0.28 in
  A1 + A2 * wind10 + A3 * (wtemp - temp).

(** [latent_heat]: [he = -f1 * (ew - ea)]. *)
Definition latent_heat (f1 ew ea : R) : R := - f1 * (ew - ea).

(** [psychrometric_constant]: [psy = CP * airp / (LV * MV)]. *)
Definition psychrometric_constant (airp : R) : R :=
  let CP := 1005 in
  let LV := 2.47e6 in
  let MV := 0.622 in
  CP * airp / (LV * MV).

(** [sensible_heat]: [hc = -psy * f1 * (wtemp - temp)]. *)
Definition sensible_heat (psy f1 wtemp temp : R) : R :=
  - psy * f1 * (wtemp - temp).

(** [absorved_lw]: [ha = (1 - A1) * emi * sigma * atemp_k**4]. *)
Definition absorved_lw (temp emi : R) : R :=
  let A1 := 0.03 in
  let sigma := 5.67e-8 in
  let atemp_k := temp + 273.15 in
  (1 - A1) * emi * sigma * atemp_k ^ 4.

(** [emmited_lw]: [hw = -A1 * sigma * wtemp_k**4]. *)
Definition emmited_lw (wtemp : R) : R :=
  let A1 := 0.972 in
  let sigma := 5.67e-8 in
  let wtemp_k := wtemp + 273.15 in
  - A1 * sigma * wtemp_k ^ 4.

(** [heat_balance]: [hnet = hs + ha + hw + he + hc]. *)
Definition heat_balance (hs ha hw he hc : R) : R := hs + ha + hw + he + hc.

End Lhb.

(** ** The vapor pressure in binary64 *)

(** The two vapor pressure functions as the interpreter evaluates them, on
    binary64 numbers, each operation rounded.  [np.exp] is an external
    routine. *)
Module LhbFloat.

Section WithExp.

Variable np_exp : float -> float.

Definition sat_vaporpress (temp : float) : float :=
  let A1 := 6.112%float in
  let A2 := 17.62%float in
  let A3 := 243.12%float in
  (A1 * np_exp ((A2 * temp) / (A3 + temp)))%float.

Definition vapor_pressure (temp rh : float) : float :=
  let es := sat_vaporpress temp in
  (rh * es / 100)%float.

End WithExp.

End LhbFloat.

(** ** Series and tables *)

(** Index labels are timestamps, in nanoseconds as pandas stores them. *)
Abbreviation label := Z.

Record Series : Type := mkSeries {
  s_index : list label;
  s_values : list cell
}.

(** A boolean series, as produced by [rad > 5] or [.isna()]. *)
Record Mask : Type := mkMask {
  m_index : list label;
  m_values : list bool
}.

Record DataFrame : Type := mkFrame {
  d_index : list label;
  d_columns : list (string * list cell)
}.

(** ** Exceptions and the object store *)

Inductive exn : Type :=
| KeyError        (* a column that the table does not have *)
| IndexError      (* [iloc] past the last row *)
| ValueError      (* arrays of different lengths in a [DataFrame] constructor *)
| TypeError       (* a reference that does not hold the expected kind of object *)
| NotAligned.     (* operands over different indexes: pandas would re-align them
                     by label; aligned inputs are the contract of the core, and
                     the model stops here instead *)

Inductive res (A : Type) : Type :=
| Ok (a : A)
| Raise (e : exn).
Arguments Ok {A} a.
Arguments Raise {A} e.

#[global] Instance res_ret : MRet res := fun A a => Ok a.
#[global] Instance res_bind : MBind res := fun A B f m =>
  match m with Ok a => f a | Raise e => Raise e end.

Fixpoint mapM_res {A B : Type} (f : A -> res B) (l : list A) : res (list B) :=
  match l with
  | [] => Ok []
  | x :: l' => y ← f x; ys ← mapM_res f l'; Ok (y :: ys)
  end.

Abbreviation loc := positive.

Inductive obj : Type :=
| OSeries (s : Series)
| OFrame (d : DataFrame).

Abbreviation store := (gmap loc obj).

(** Python code over shared objects: a state and exception monad. *)
Definition Py (A : Type) : Type := store -> res (A * store).

#[global] Instance Py_ret : MRet Py := fun A a σ => Ok (a, σ).
#[global] Instance Py_bind : MBind Py := fun A B f m σ =>
  match m σ with
  | Ok (a, σ') => f a σ'
  | Raise e => Raise e
  end.

Definition lift_res {A : Type} (r : res A) : Py A := fun σ =>
  match r with Ok a => Ok (a, σ) | Raise e => Raise e end.

Definition load_series (l : loc) : Py Series := fun σ =>
  match σ !! l with
  | Some (OSeries s) => Ok (s, σ)
  | _ => Raise TypeError
  end.

Definition load_frame (l : loc) : Py DataFrame := fun σ =>
  match σ !! l with
  | Some (OFrame d) => Ok (d, σ)
  | _ => Raise TypeError
  end.

(** A new object, at a reference that is not in use. *)
Definition alloc (o : obj) : Py loc := fun σ =>
  let l := fresh (dom σ) in Ok (l, <[l := o]> σ).

(** An update in place of the object behind a reference. *)
Definition store_obj (l : loc) (o : obj) : Py unit := fun σ =>
  Ok (tt, <[l := o]> σ).

(** ** Operations of pandas and numpy used by the program *)

(** [k * s] for a number [k]. *)
Definition s_scale (k : R) (s : Series) : Series :=
  mkSeries (s_index s) (map (lift1 (Rmult k)) (s_values s)).

(** [s.copy()]: the same labels and values in a new object. *)
Definition s_copy (s : Series) : Series := mkSeries (s_index s) (s_values s).

(** [s > k]. *)
Definition s_gt (s : Series) (k : R) : Mask :=
  mkMask (s_index s) (map (fun c => cgt c k) (s_values s)).

(** [s.isna()] on a column of a table with index [ix]. *)
Definition col_isna (ix : list label) (c : list cell) : Mask :=
  mkMask ix (map isna c).

(** The entries of [l] at which the mask is true. *)
Fixpoint select {A : Type} (m : list bool) (l : list A) : list A :=
  match m, l with
  | b :: m', x :: l' => if b then x :: select m' l' else select m' l'
  | _, _ => []
  end.

(** [l] with its entries under the mask replaced, in order, by those of [v]. *)
Fixpoint assign {A : Type} (m : list bool) (l v : list A) : list A :=
  match m, l with
  | b :: m', x :: l' =>
      if b then
        match v with
        | y :: v' => y :: assign m' l' v'
        | [] => x :: assign m' l' []
        end
      else x :: assign m' l' v
  | _, _ => l
  end.

(** [s.loc[m]] for a boolean series [m] over the index of [s]. *)
Definition s_loc (s : Series) (m : Mask) : res Series :=
  if decide (m_index m = s_index s)
  then Ok (mkSeries (select (m_values m) (s_index s))
                    (select (m_values m) (s_values s)))
  else Raise NotAligned.

(** [s.loc[m] = v]: the values of [v] go to the labels selected by [m]. *)
Definition s_loc_set (s : Series) (m : Mask) (v : Series) : res Series :=
  if decide (m_index m = s_index s) then
    if decide (s_index v = select (m_values m) (s_index s))
    then Ok (mkSeries (s_index s) (assign (m_values m) (s_values s) (s_values v)))
    else Raise NotAligned
  else Raise NotAligned.

(** An arithmetic operator between two series over the same index. *)
Definition s_binop (f : cell -> cell -> cell) (a b : Series) : res Series :=
  if decide (s_index a = s_index b)
  then Ok (mkSeries (s_index a) (zip_with f (s_values a) (s_values b)))
  else Raise NotAligned.

Definition s_mul : Series -> Series -> res Series := s_binop (lift2 Rmult).
Definition s_sub : Series -> Series -> res Series := s_binop (lift2 Rminus).
Definition s_div : Series -> Series -> res Series := s_binop cdiv.

(** [-s]. *)
Definition s_neg (s : Series) : Series :=
  mkSeries (s_index s) (map (lift1 Ropp) (s_values s)).

(** [s * k] for a numpy scalar [k], which may be NaN. *)
Definition s_mul_scalar (s : Series) (k : cell) : Series :=
  mkSeries (s_index s) (map (fun c => lift2 Rmult c k) (s_values s)).

(** [.max()]: the largest value, missing values skipped; NaN when there is
    none. *)
Definition cmax (a b : cell) : cell :=
  match a, b with
  | Some x, Some y => Some (Rmax x y)
  | Some x, None => Some x
  | None, _ => b
  end.

Definition nanmax (l : list cell) : cell := foldr cmax None l.

(** [.diff()] on values: the first entry is NaN, every other entry is the
    difference with the entry before it. *)
Fixpoint diff_from (prev : cell) (l : list cell) : list cell :=
  match l with
  | [] => []
  | x :: l' => lift2 Rminus x prev :: diff_from x l'
  end.

Definition diff (l : list cell) : list cell :=
  match l with
  | [] => []
  | x :: l' => None :: diff_from x l'
  end.

Definition s_diff (s : Series) : Series := mkSeries (s_index s) (diff (s_values s)).

(** [s.index.to_series().diff().dt.total_seconds()]: the seconds elapsed since
    the label before, NaN at the first label. *)
Fixpoint elapsed_from (prev : label) (ix : list label) : list cell :=
  match ix with
  | [] => []
  | t :: ix' => Some (IZR (t - prev) / 1e9) :: elapsed_from t ix'
  end.

Definition elapsed (ix : list label) : list cell :=
  match ix with
  | [] => []
  | t :: ix' => None :: elapsed_from t ix'
  end.

Definition index_total_seconds (s : Series) : Series :=
  mkSeries (s_index s) (elapsed (s_index s)).

(** [np.linspace(start, stop, num)]: [num] evenly spaced samples, the last one
    [stop]; a single sample is [start]. *)
Definition linspace (start stop : R) (num : nat) : list R :=
  match num with
  | O => []
  | S O => [start]
  | S div =>
      let step := (stop - start) / INR div in
      map (fun i => INR i * step + start) (seq 0 div) ++ [stop]
  end.

(** [linspace] with a stop that may be NaN. *)
Definition linspace_cell (start : R) (stop : cell) (num : nat) : list cell :=
  match stop with
  | Some b => map Some (linspace start b num)
  | None => replicate num None
  end.

(** [df[name]]. *)
Fixpoint get_col (name : string) (cols : list (string * list cell)) : res (list cell) :=
  match cols with
  | [] => Raise KeyError
  | (n, c) :: cols' => if decide (n = name) then Ok c else get_col name cols'
  end.

(** [df[name] = c]: the column is replaced where it is, or added last. *)
Fixpoint set_col (name : string) (c : list cell) (cols : list (string * list cell))
  : list (string * list cell) :=
  match cols with
  | [] => [(name, c)]
  | (n, c0) :: cols' =>
      if decide (n = name) then (n, c) :: cols' else (n, c0) :: set_col name c cols'
  end.

Definition d_get (name : string) (d : DataFrame) : res (list cell) :=
  get_col name (d_columns d).

Definition d_set (name : string) (c : list cell) (d : DataFrame) : DataFrame :=
  mkFrame (d_index d) (set_col name c (d_columns d)).

(** [df.loc[m, name] = k]. *)
Definition d_loc_set (d : DataFrame) (m : Mask) (name : string) (k : cell)
  : res DataFrame :=
  if decide (m_index m = d_index d) then
    c ← d_get name d;
    Ok (d_set name (zip_with (fun (b : bool) x => if b then k else x) (m_values m) c) d)
  else Raise NotAligned.

(** [df.iloc[i].values]: row [i], one value per column. *)
Definition iloc (i : nat) (d : DataFrame) : res (list cell) :=
  mapM_res (fun c : string * list cell =>
              match c.2 !! i with Some x => Ok x | None => Raise IndexError end)
           (d_columns d).

(** ** [lake_sheatbalance.py] on series *)

(** A formula that is one arithmetic expression of its arguments is applied
    entry by entry; a missing entry gives a missing result.  The operands are
    read from the store and the result is a new series. *)
Definition elementwise1 (f : cell -> cell) (a : loc) : Py Series :=
  x ← load_series a;
  mret (mkSeries (s_index x) (map f (s_values x))).

Definition elementwise2 (f : cell -> cell -> cell) (a b : loc) : Py Series :=
  x ← load_series a;
  y ← load_series b;
  lift_res (s_binop f x y).

Definition elementwise3 (f : cell -> cell -> cell -> cell) (a b c : loc)
  : Py Series :=
  x ← load_series a;
  y ← load_series b;
  z ← load_series c;
  if decide (s_index x = s_index y /\ s_index y = s_index z)
  then mret (mkSeries (s_index x)
               (zip_with (fun p r => f p.1 p.2 r)
                         (zip (s_values x) (s_values y)) (s_values z)))
  else lift_res (Raise NotAligned).

Module LhbSeries.

Definition atm_emmissivity :=
  elementwise3 (fun temp cc ew =>
                  match temp, cc, ew with
                  | Some t, Some c, Some e => Lhb.atm_emmissivity t c e
                  | _, _, _ => None
                  end).
Definition sat_vaporpress := elementwise1 (lift1 Lhb.sat_vaporpress).
Definition vapor_pressure := elementwise2 (lift2 Lhb.vapor_pressure).
Definition transfer_function := elementwise3 (lift3 Lhb.transfer_function).
Definition latent_heat := elementwise3 (lift3 Lhb.latent_heat).
Definition psychrometric_constant :=
  elementwise1 (lift1 Lhb.psychrometric_constant).
Definition absorved_lw := elementwise2 (lift2 Lhb.absorved_lw).
Definition emmited_lw := elementwise1 (lift1 Lhb.emmited_lw).

(** [sensible_heat]: [hc = -psy * f1 * (wtemp - temp)], four operands. *)
Definition sensible_heat (psy f1 wtemp temp : loc) : Py Series :=
  p ← load_series psy;
  f ← load_series f1;
  w ← load_series wtemp;
  t ← load_series temp;
  a ← lift_res (s_mul (s_neg p) f);
  b ← lift_res (s_sub w t);
  lift_res (s_mul a b).

(** [heat_balance]: [hnet = hs + ha + hw + he + hc], added left to right. *)
Definition heat_balance (hs ha hw he hc : loc) : Py Series :=
  s ← load_series hs;
  a ← load_series ha;
  w ← load_series hw;
  e ← load_series he;
  c ← load_series hc;
  x ← lift_res (s_binop (lift2 Rplus) s a);
  y ← lift_res (s_binop (lift2 Rplus) x w);
  z ← lift_res (s_binop (lift2 Rplus) y e);
  lift_res (s_binop (lift2 Rplus) z c).

(** [swrad_in]:
    [rad_out = 0*rad.copy()],
    [rad_out.loc[rad > 5] = rad.loc[rad>5] * albedo.loc[rad>5]],
    [hs = rad - rad_out]. *)
Definition swrad_in (rad albedo : loc) : Py Series :=
  r ← load_series rad;
  rad_out ← alloc (OSeries (s_scale 0 (s_copy r)));
  r ← load_series rad;
  a ← load_series albedo;
  x ← lift_res (s_loc r (s_gt r 5));
  y ← lift_res (s_loc a (s_gt r 5));
  v ← lift_res (s_mul x y);
  out ← load_series rad_out;
  r ← load_series rad;
  out' ← lift_res (s_loc_set out (s_gt r 5) v);
  store_obj rad_out (OSeries out');;
  r ← load_series rad;
  out ← load_series rad_out;
  lift_res (s_sub r out).

End LhbSeries.

(** ** [main.py] *)

Section Main.

(** [pylake.heat_content(temp, bthA, bthD, depth).values[0]], an external
    library routine: the first value of its result, or the exception that the
    call or the access to that value raises. *)
Variable pylake_heat_content :
  list cell -> list cell -> list cell -> list cell -> res cell.

(** [pylake.dens0], the external density function. *)
Variable dens0 : R -> R.

(** The body of the loop of [heat_content] at row [i]. *)
Definition heat_content_row (td dd bd : DataFrame) (i : nat) : res cell :=
  depth_row ← iloc i dd;
  temp_row ← iloc i td;
  if decide (length depth_row = length temp_row) then
    if forallb isna temp_row then Ok None
    else
      area ← d_get "Area_m2" bd;
      depth ← d_get "Depth_m" bd;
      pylake_heat_content temp_row area depth depth_row
  else Raise ValueError.

(** [heat_content(temp_data, depth_data, bath_data)]; the three arguments
    are references to the caller's tables. *)
Definition heat_content (temp_data depth_data bath_data : loc) : Py Series :=
  (* temp_data["0"] = temp_data["0.45"] *)
  td ← load_frame temp_data;
  c ← lift_res (d_get "0.45" td);
  store_obj temp_data (OFrame (d_set "0" c td));;
  (* depth_data["0"] = 0 *)
  dd ← load_frame depth_data;
  store_obj depth_data
    (OFrame (d_set "0" (replicate (length (d_index dd)) (Some 0)) dd));;
  (* depth_data.loc[temp_data["0.45"].isna(), "0"] = np.nan *)
  td ← load_frame temp_data;
  c ← lift_res (d_get "0.45" td);
  dd ← load_frame depth_data;
  dd' ← lift_res (d_loc_set dd (col_isna (d_index td) c) "0" None);
  store_obj depth_data (OFrame dd');;
  (* the loop over the rows; it only reads the three tables *)
  td ← load_frame temp_data;
  dd ← load_frame depth_data;
  bd ← load_frame bath_data;
  heatc_data ← lift_res (mapM_res (heat_content_row td dd bd)
                                   (seq 0 (length (d_index td))));
  mret (mkSeries (d_index td) heatc_data).

(** Lines 58 and 59 of [main]:
    [dhdt = heatc_data.diff() / heatc_data.index.to_series().diff().dt.total_seconds()],
    [dhw = -(dhdt - hnet) * bath_data.Area_m2.max()]. *)
Definition heat_rate (heatc_data : Series) : res Series :=
  s_div (s_diff heatc_data) (index_total_seconds heatc_data).

Definition residual_power (heatc_data hnet : Series) (bath_data : DataFrame)
  : res (Series * Series) :=
  dhdt ← heat_rate heatc_data;
  x ← s_sub dhdt hnet;
  area ← d_get "Area_m2" bath_data;
  Ok (dhdt, s_mul_scalar (s_neg x) (nanmax area)).

(** Lines 61 to 76 of [main]: the assumed inflow temperature [wtemp], its
    heat per volume [wheat] and the flow [dhw.values / wheat.values]. *)
Definition flow_temp (temp_data : DataFrame) (dhw : Series) : res Series :=
  t0 ← d_get "0" temp_data;
  Ok (mkSeries (s_index dhw)
               (linspace_cell 2 (nanmax t0) (length (s_values dhw)))).

Definition flow_heat (wtemp : Series) : Series :=
  mkSeries (s_index wtemp)
    (map (fun c => lift2 Rmult (lift2 Rmult (lift1 dens0 c) (Some 4186)) c)
         (s_values wtemp)).

Definition flow_inference (temp_data : DataFrame) (dhw : Series)
  : res (Series * Series * Series) :=
  wtemp ← flow_temp temp_data dhw;
  let wheat := flow_heat wtemp in
  Ok (wtemp, wheat,
      mkSeries (s_index dhw) (zip_with cdiv (s_values dhw) (s_values wheat))).

(** The numerical part of [main], from the loaded tables and the net flux
    [hnet] to the heat rate, the missing heat and the flow. *)
Definition main (temp_data depth_data bath_data : loc) (hnet : Series)
  : Py (Series * Series * Series) :=
  heatc_data ← heat_content temp_data depth_data bath_data;
  bd ← load_frame bath_data;
  r ← lift_res (residual_power heatc_data hnet bd);
  td ← load_frame temp_data;
  f ← lift_res (flow_inference td r.2);
  mret (r.1, r.2, f.2).

End Main.

(** ** Notions of the specification *)

(** The depth column that [heat_content] leaves in the depth table for the
    point at the surface: 0 where the reading in [c] is there, missing where
    it is missing. *)
Definition surface_depth (c : list cell) (n : nat) : list cell :=
  zip_with (fun (b : bool) x => if b then None else x)
           (map isna c) (replicate n (Some 0)).

(** The area at depth [d] of a bathymetric curve: the area in the first row
    whose depth is [d]. *)
Fixpoint area_at (d : R) (depths areas : list cell) : cell :=
  match depths, areas with
  | Some x :: ds, a :: rest => if decide (x = d) then a else area_at d ds rest
  | None :: ds, _ :: rest => area_at d ds rest
  | _, _ => None
  end.

(** The area of a bathymetric curve does not increase with the depth. *)
Definition area_nonincreasing (depths areas : list cell) : Prop :=
  forall i j di dj ai aj,
    depths !! i = Some (Some di) -> depths !! j = Some (Some dj) ->
    areas !! i = Some (Some ai) -> areas !! j = Some (Some aj) ->
    di <= dj -> aj <= ai.

(** Depths are measured downward from the surface: every row that has an
    area has a depth, and that depth is not negative. *)
Definition depths_from_surface (depths areas : list cell) : Prop :=
  forall j aj,
    areas !! j = Some (Some aj) ->
    exists dj, depths !! j = Some (Some dj) /\ 0 <= dj.

(** The shallowest defined reading of one profile: the temperature [v] of a
    sensor that has a reading, no sensor with a reading being at a smaller
    depth. *)
Definition shallowest_reading (depths temps : list cell) (v : R) : Prop :=
  exists j d,
    temps !! j = Some (Some v) /\ depths !! j = Some (Some d) /\
    forall k d' v', temps !! k = Some (Some v') -> depths !! k = Some (Some d') ->
                    d <= d'.

(** A flux function leaves the objects of its caller as they are: whatever
    was in the store before the call is there, unchanged, after it. *)
Definition leaves_store {A : Type} (m : Py A) : Prop :=
  forall σ a σ', m σ = Ok (a, σ') -> σ ⊆ σ'.

(** The names of the columns of a table, in order. *)
Definition col_names (d : DataFrame) : list string := (d_columns d).*1.

(** Every column of the table has one entry per label of its index, as in
    every pandas table. *)
Definition rectangular (d : DataFrame) : Prop :=
  Forall (fun c : string * list cell => length c.2 = length (d_index d))
         (d_columns d).

(** ** Sample data *)

(** Two hours of radiation and albedo: a night value and a day value. *)
Definition ex_rad : Series :=
  mkSeries [0%Z; 3600000000000%Z] [Some 3; Some 800].
Definition ex_albedo : Series :=
  mkSeries [0%Z; 3600000000000%Z] [Some 0.1; Some 0.1].
Definition ex_meteo : store :=
  <[1%positive := OSeries ex_rad]> (<[2%positive := OSeries ex_albedo]> ∅).

(** Two hours of a mooring with sensors at 0.45 m and 1.5 m; the first hour
    has no reading at all. *)
Definition ex_hour : list label := [0%Z; 3600000000000%Z].
Definition ex_temp : DataFrame :=
  mkFrame ex_hour [("0.45"%string, [None; Some 6]); ("1.5"%string, [None; Some 5])].
Definition ex_depth : DataFrame :=
  mkFrame ex_hour [("0.45"%string, [Some 0.45; Some 0.45]);
                   ("1.5"%string, [Some 1.5; Some 1.5])].
Definition ex_bath : DataFrame :=
  mkFrame [0%Z; 1%Z; 2%Z]
    [("Depth_m"%string, [Some 0; Some 1; Some 2]);
     ("Area_m2"%string, [Some 10000; Some 6000; Some 1000])].
Definition ex_tables : store :=
  <[1%positive := OFrame ex_temp]>
    (<[2%positive := OFrame ex_depth]> (<[3%positive := OFrame ex_bath]> ∅)).

(** A stand-in for the external routine: one joule, whatever the profile. *)
Definition ex_pylake (temp area depth z : list cell) : res cell := Ok (Some 1).

(** The tables of [ex_tables] after [heat_content]. *)
Definition ex_temp_after : DataFrame :=
  mkFrame ex_hour [("0.45"%string, [None; Some 6]); ("1.5"%string, [None; Some 5]);
                   ("0"%string, [None; Some 6])].
Definition ex_depth_after : DataFrame :=
  mkFrame ex_hour [("0.45"%string, [Some 0.45; Some 0.45]);
                   ("1.5"%string, [Some 1.5; Some 1.5]);
                   ("0"%string, [None; Some 0])].
Definition ex_tables_after : store :=
  <[2%positive := OFrame ex_depth_after]>
    (<[1%positive := OFrame ex_temp_after]> ex_tables).

(** One hour in which the sensor at 0.45 m has no reading and the sensor at
    1.5 m reads 5 degC. *)
Definition ex_gap_temp : DataFrame :=
  mkFrame [0%Z] [("0.45"%string, [None]); ("1.5"%string, [Some 5])].
Definition ex_gap_depth : DataFrame :=
  mkFrame [0%Z] [("0.45"%string, [Some 0.45]); ("1.5"%string, [Some 1.5])].
Definition ex_gap : store :=
  <[1%positive := OFrame ex_gap_temp]>
    (<[2%positive := OFrame ex_gap_depth]> (<[3%positive := OFrame ex_bath]> ∅)).
Definition ex_gap_temp_after : DataFrame :=
  mkFrame [0%Z] [("0.45"%string, [None]); ("1.5"%string, [Some 5]);
                 ("0"%string, [None])].
Definition ex_gap_depth_after : DataFrame :=
  mkFrame [0%Z] [("0.45"%string, [Some 0.45]); ("1.5"%string, [Some 1.5]);
                 ("0"%string, [None])].
Definition ex_gap_after : store :=
  <[2%positive := OFrame ex_gap_depth_after]>
    (<[1%positive := OFrame ex_gap_temp_after]> ex_gap).


(** [np.exp] at the one argument the vapor pressure at -10 degC asks for. *)
Definition exp_at_minus_ten (x : float) : float :=
  if (x =? -0.7558339052848319)%float then 0.46961883377179675%float else nan.

(** A heat content and a net flux over the two hours, and a density. *)
Definition ex_heatc : Series := mkSeries ex_hour [Some 10; Some 3610].
Definition ex_dens0 (T : R) : R := 1000.

(** The five flux terms over the two hours, each in its own object. *)
Definition ex_fluxes : store :=
  <[1%positive := OSeries (mkSeries ex_hour [Some 0; Some 700])]>
    (<[2%positive := OSeries (mkSeries ex_hour [Some 300; None])]>
       (<[3%positive := OSeries (mkSeries ex_hour [Some (-350); Some (-360)])]>
          (<[4%positive := OSeries (mkSeries ex_hour [Some (-20); Some (-30)])]>
             (<[5%positive := OSeries (mkSeries ex_hour [Some (-10); Some 5])]> ∅)))).

(** A mooring table that has no sensor at 0.45 m. *)
Definition ex_deep_temp : DataFrame :=
  mkFrame ex_hour [("1.5"%string, [Some 5; Some 5])].
Definition ex_deep : store :=
  <[1%positive := OFrame ex_deep_temp]>
    (<[2%positive := OFrame ex_depth]> (<[3%positive := OFrame ex_bath]> ∅)).

(** A heat content that does not change, and no net flux. *)
Definition ex_still : Series := mkSeries ex_hour [Some 10; Some 10].
Definition ex_calm : Series := mkSeries ex_hour [Some 0; Some 0].

(** * Properties *)

(** ** The flux formulas *)

Section FluxFormulas.

Lemma transfer_function_unfold wind10 wtemp temp :
  Lhb.transfer_function wind10 wtemp temp
  = 4.8 + 1.98 * wind10 + 0.28 * (wtemp - temp).
Proof. reflexivity. Qed.

Lemma transfer_function_pos wind10 wtemp temp :
  0 <= wind10 -> temp <= wtemp -> 0 < Lhb.transfer_function wind10 wtemp temp.
Proof. intros Hw Ht. rewrite transfer_function_unfold. lra. Qed.

Lemma psychrometric_constant_pos airp :
  0 < airp -> 0 < Lhb.psychrometric_constant airp.
Proof.
  intros Hp. unfold Lhb.psychrometric_constant; cbv zeta.
  apply Rdiv_lt_0_compat; lra.
Qed.

(** The exponent of [sat_vaporpress] grows with the temperature above
    -243.12 degC. *)
Lemma exponent_increasing t1 t2 :
  -243.12 < t1 -> t1 < t2 ->
  (17.62 * t1) / (243.12 + t1) < (17.62 * t2) / (243.12 + t2).
Proof.
  intros H1 H12.
  apply Rlt_0_minus.
  replace ((17.62 * t2) / (243.12 + t2) - (17.62 * t1) / (243.12 + t1))
    with ((17.62 * 243.12 * (t2 - t1)) / ((243.12 + t1) * (243.12 + t2)))
    by (field; lra).
  apply Rdiv_lt_0_compat; nra.
Qed.

Lemma sat_vaporpress_pos temp : 0 < Lhb.sat_vaporpress temp.
Proof.
  unfold Lhb.sat_vaporpress; cbv zeta.
  apply Rmult_lt_0_compat; [lra | apply exp_pos].
Qed.

End FluxFormulas.

(** C3, as stated, fails: with no wind and water 20 degC colder than the air
    the transfer function is -0.8, and the latent heat of a surface more humid
    than the air is positive. *)
Lemma latent_heat_negative_counterexample :
  0 <= 0 /\ 1 < 2 /\
  Lhb.transfer_function 0 0 20 = -0.8 /\
  ~ (Lhb.latent_heat (Lhb.transfer_function 0 0 20) 2 1 < 0).
Proof.
  repeat split; [lra | lra | rewrite transfer_function_unfold; lra |].
  unfold Lhb.latent_heat. rewrite transfer_function_unfold. lra.
Qed.

(** C3, amended: for every positive transfer-function value and every pair of
    vapor pressures with [ew > ea], the latent heat is [-f1 * (ew - ea)] and is
    negative; and [transfer_function] is
    [4.8 + 1.98 * wind10 + 0.28 * (wtemp - temp)]. *)
Theorem latent_heat_negative f1 ew ea :
  0 < f1 -> ea < ew ->
  Lhb.latent_heat f1 ew ea = - f1 * (ew - ea)
  /\ Lhb.latent_heat f1 ew ea < 0
  /\ forall wind10 wtemp temp,
       Lhb.transfer_function wind10 wtemp temp
       = 4.8 + 1.98 * wind10 + 0.28 * (wtemp - temp).
Proof.
  intros Hf He. unfold Lhb.latent_heat.
  split; [reflexivity | split; [nra |]].
  intros wind10 wtemp temp. apply transfer_function_unfold.
Qed.

Lemma latent_heat_negative_witness :
  0 < 4.8 /\ 1 < 2 /\ Lhb.latent_heat 4.8 2 1 < 0.
Proof.
  assert (Hf : 0 < 4.8) by lra.
  assert (He : 1 < 2) by lra.
  split; [exact Hf | split; [exact He |]].
  exact (proj1 (proj2 (latent_heat_negative 4.8 2 1 Hf He))).
Defined.

(** C7: with [wind10 >= 0], a positive air pressure and water warmer than the
    air, the sensible heat computed from [psychrometric_constant] and
    [transfer_function] is [-psy * f1 * (wtemp - temp)] and is negative. *)
Theorem sensible_heat_negative wind10 airp wtemp temp :
  0 <= wind10 -> 0 < airp -> temp < wtemp ->
  let psy := Lhb.psychrometric_constant airp in
  let f1 := Lhb.transfer_function wind10 wtemp temp in
  Lhb.sensible_heat psy f1 wtemp temp = - psy * f1 * (wtemp - temp)
  /\ Lhb.sensible_heat psy f1 wtemp temp < 0.
Proof.
  intros Hw Hp Ht psy f1. split; [reflexivity |].
  assert (Hpsy : 0 < psy) by (apply psychrometric_constant_pos; exact Hp).
  assert (Hf : 0 < f1) by (apply transfer_function_pos; lra).
  unfold Lhb.sensible_heat.
  assert (Hm : 0 < psy * f1) by (apply Rmult_lt_0_compat; assumption).
  nra.
Qed.

Lemma sensible_heat_negative_witness :
  Lhb.sensible_heat (Lhb.psychrometric_constant 850)
    (Lhb.transfer_function 2 10 8) 10 8 < 0.
Proof.
  refine (proj2 (sensible_heat_negative 2 850 10 8 _ _ _)); lra.
Defined.

(** C8, as stated, fails on binary64 numbers: at -10 degC the saturated vapor
    pressure is 2.870310312013222, and the vapor pressure at 100 percent,
    [(100 * es) / 100] with both operations rounded, is 2.8703103120132223. *)
Lemma vapor_pressure_rounded :
  ((17.62 * -10) / (243.12 + -10))%float = (-0.7558339052848319)%float
  /\ LhbFloat.sat_vaporpress exp_at_minus_ten (-10)%float
     = 2.870310312013222%float
  /\ LhbFloat.vapor_pressure exp_at_minus_ten (-10)%float 100%float
     = 2.8703103120132223%float
  /\ (LhbFloat.sat_vaporpress exp_at_minus_ten (-10)
      <? LhbFloat.vapor_pressure exp_at_minus_ten (-10) 100)%float = true
  /\ LhbFloat.vapor_pressure exp_at_minus_ten (-10)%float 100%float
     <> LhbFloat.sat_vaporpress exp_at_minus_ten (-10)%float.
Proof.
  split; [vm_compute; reflexivity|]. split; [vm_compute; reflexivity|].
  split; [vm_compute; reflexivity|]. split; [vm_compute; reflexivity|].
  intros H. apply (f_equal (fun f => (f =? 2.870310312013222)%float)) in H.
  vm_compute in H. discriminate H.
Qed.

(** C8, amended: in exact arithmetic, on real numbers, the vapor pressure at a
    relative humidity of 100 percent is the saturated vapor pressure, at every
    temperature. *)
Theorem vapor_pressure_saturated temp :
  Lhb.vapor_pressure temp 100 = Lhb.sat_vaporpress temp.
Proof. unfold Lhb.vapor_pressure; cbv zeta. field. Qed.

(** C9: on the interval from -10 to 40 degC the saturated vapor pressure is
    strictly increasing, and it is positive. *)
Theorem sat_vaporpress_increasing_positive :
  (forall t1 t2, -10 <= t1 -> t1 < t2 -> t2 <= 40 ->
     Lhb.sat_vaporpress t1 < Lhb.sat_vaporpress t2)
  /\ (forall temp, -10 <= temp <= 40 -> 0 < Lhb.sat_vaporpress temp).
Proof.
  split.
  - intros t1 t2 H1 H12 H2. unfold Lhb.sat_vaporpress; cbv zeta.
    apply Rmult_lt_compat_l; [lra |].
    apply exp_increasing, exponent_increasing; lra.
  - intros temp _. apply sat_vaporpress_pos.
Qed.

(** ** Runs of Python code over the store *)

Lemma Py_bind_Ok {A B} (m : Py A) (f : A -> Py B) σ b σ' :
  (m ≫= f) σ = Ok (b, σ') ->
  exists a σ1, m σ = Ok (a, σ1) /\ f a σ1 = Ok (b, σ').
Proof.
  unfold mbind, Py_bind. destruct (m σ) as [[a σ1]|e]; [eauto | discriminate].
Qed.

Lemma res_bind_Ok {A B} (m : res A) (f : A -> res B) b :
  m ≫= f = Ok b -> exists a, m = Ok a /\ f a = Ok b.
Proof. destruct m as [a|e]; simpl; [eauto | discriminate]. Qed.

Lemma lift_res_Ok {A} (a : A) σ : lift_res (Ok a) σ = Ok (a, σ).
Proof. reflexivity. Qed.

Lemma lift_res_inv {A} (r : res A) σ a σ' :
  lift_res r σ = Ok (a, σ') -> σ' = σ /\ r = Ok a.
Proof. destruct r; simpl; intros H; by simplify_eq. Qed.

Lemma load_series_eq l σ s :
  σ !! l = Some (OSeries s) -> load_series l σ = Ok (s, σ).
Proof. unfold load_series. by intros ->. Qed.

Lemma load_series_Ok l σ s σ' :
  load_series l σ = Ok (s, σ') -> σ' = σ /\ σ !! l = Some (OSeries s).
Proof.
  unfold load_series. destruct (σ !! l) as [[?|?]|]; intros H; by simplify_eq.
Qed.

Lemma load_frame_eq l σ d :
  σ !! l = Some (OFrame d) -> load_frame l σ = Ok (d, σ).
Proof. unfold load_frame. by intros ->. Qed.

Lemma load_frame_Ok l σ d σ' :
  load_frame l σ = Ok (d, σ') -> σ' = σ /\ σ !! l = Some (OFrame d).
Proof.
  unfold load_frame. destruct (σ !! l) as [[?|?]|]; intros H; by simplify_eq.
Qed.

Lemma store_obj_Ok l o σ u σ' :
  store_obj l o σ = Ok (u, σ') -> σ' = <[l := o]> σ.
Proof. unfold store_obj. intros H; by simplify_eq. Qed.

Lemma alloc_Ok o σ l σ' :
  alloc o σ = Ok (l, σ') -> l = fresh (dom σ) /\ σ' = <[l := o]> σ.
Proof. unfold alloc. intros H; by simplify_eq. Qed.

Lemma mret_Ok {A} (a : A) (σ : store) b σ' :
  (mret a : Py A) σ = Ok (b, σ') -> σ' = σ /\ b = a.
Proof. unfold mret, Py_ret. intros H; by simplify_eq. Qed.

Lemma fresh_unused (σ : store) : σ !! fresh (dom σ) = None.
Proof. apply not_elem_of_dom, is_fresh. Qed.

(** A run that returned is taken apart statement by statement. *)
Ltac py_inv H :=
  repeat
    (first
       [ apply Py_bind_Ok in H as (? & ? & ?Hstep & H)
       | match goal with
         | Hs : load_series _ _ = Ok _ |- _ => apply load_series_Ok in Hs as [-> ?]
         | Hs : load_frame _ _ = Ok _ |- _ => apply load_frame_Ok in Hs as [-> ?]
         | Hs : lift_res _ _ = Ok _ |- _ => apply lift_res_inv in Hs as [-> ?]
         | Hs : store_obj _ _ _ = Ok _ |- _ => apply store_obj_Ok in Hs as ->
         | Hs : alloc _ _ = Ok _ |- _ => apply alloc_Ok in Hs as [? ->]
         | Hs : mret _ _ = Ok _ |- _ => apply mret_Ok in Hs as [-> ->]
         end ]).

(** ** Series and tables *)

Lemma s_loc_eq s m :
  m_index m = s_index s ->
  s_loc s m = Ok (mkSeries (select (m_values m) (s_index s))
                           (select (m_values m) (s_values s))).
Proof. intros H. unfold s_loc. by rewrite decide_True. Qed.

Lemma s_binop_eq f a b :
  s_index a = s_index b ->
  s_binop f a b = Ok (mkSeries (s_index a) (zip_with f (s_values a) (s_values b))).
Proof. intros H. unfold s_binop. by rewrite decide_True. Qed.

Lemma s_loc_set_eq s m v :
  m_index m = s_index s -> s_index v = select (m_values m) (s_index s) ->
  s_loc_set s m v
  = Ok (mkSeries (s_index s) (assign (m_values m) (s_values s) (s_values v))).
Proof. intros H1 H2. unfold s_loc_set. by rewrite !decide_True. Qed.

(** Assigning under a mask what was computed from the entries selected by
    that mask changes the entries under the mask, each from its own row. *)
Lemma lookup_assign_select {A} (f : A -> A -> A) (m : list bool) :
  forall (l u w : list A) (i : nat) (b : bool) x p q,
    m !! i = Some b -> l !! i = Some x -> u !! i = Some p -> w !! i = Some q ->
    assign m l (zip_with f (select m u) (select m w)) !! i
    = Some (if b then f p q else x).
Proof.
  induction m as [|b0 m IH]; intros l u w i b x p q Hm Hl Hu Hw; [done|].
  destruct l as [|x0 l]; [done|]. destruct u as [|p0 u]; [done|].
  destruct w as [|q0 w]; [done|].
  destruct i as [|i]; simpl in *.
  - simplify_eq. by destruct b.
  - destruct b0; simpl; eauto.
Qed.

Lemma get_col_set_col_eq name c cols : get_col name (set_col name c cols) = Ok c.
Proof.
  induction cols as [|[n c0] cols IH]; simpl.
  - by rewrite decide_True.
  - destruct (decide (n = name)) as [->|Hn]; simpl.
    + by rewrite decide_True.
    + by rewrite decide_False.
Qed.

Lemma get_col_set_col_ne name name' c cols :
  name <> name' -> get_col name' (set_col name c cols) = get_col name' cols.
Proof.
  intros Hne. induction cols as [|[n c0] cols IH]; simpl.
  - by rewrite decide_False.
  - destruct (decide (n = name)) as [->|Hn]; simpl.
    + by rewrite !decide_False.
    + by rewrite IH.
Qed.

Lemma set_col_set_col name c1 c2 cols :
  set_col name c2 (set_col name c1 cols) = set_col name c2 cols.
Proof.
  induction cols as [|[n c0] cols IH]; simpl.
  - by rewrite decide_True.
  - destruct (decide (n = name)) as [->|Hn]; simpl.
    + by rewrite decide_True.
    + by rewrite decide_False, IH.
Qed.

Lemma d_get_d_set_eq name c d : d_get name (d_set name c d) = Ok c.
Proof. apply get_col_set_col_eq. Qed.

Lemma d_get_d_set_ne name name' c d :
  name <> name' -> d_get name' (d_set name c d) = d_get name' d.
Proof. apply get_col_set_col_ne. Qed.

Lemma d_set_d_set name c1 c2 d : d_set name c2 (d_set name c1 d) = d_set name c2 d.
Proof. unfold d_set. simpl. by rewrite set_col_set_col. Qed.

Lemma d_index_d_set name c d : d_index (d_set name c d) = d_index d.
Proof. reflexivity. Qed.

Lemma d_loc_set_eq d ix c name z :
  ix = d_index d -> d_get name d = Ok z ->
  d_loc_set d (col_isna ix c) name None
  = Ok (d_set name
          (zip_with (fun (b : bool) x => if b then None else x) (map isna c) z) d).
Proof.
  intros -> Hz. unfold d_loc_set. simpl m_index. rewrite decide_True by done.
  rewrite Hz. reflexivity.
Qed.

Lemma d_loc_set_inv d ix c name dd :
  d_loc_set d (col_isna ix c) name None = Ok dd ->
  ix = d_index d /\ exists z, d_get name d = Ok z /\
    dd = d_set name
           (zip_with (fun (b : bool) x => if b then None else x) (map isna c) z) d.
Proof.
  unfold d_loc_set. simpl m_index. destruct (decide (ix = d_index d)) as [->|]; [|done].
  intros H. apply res_bind_Ok in H as (z & Hz & H). simplify_eq. eauto.
Qed.

(** ** The absorbed shortwave radiation *)

(** What [swrad_in] returns and what it leaves in the store, for two series
    over one index. *)
Lemma swrad_in_run σ rad albedo r a :
  σ !! rad = Some (OSeries r) -> σ !! albedo = Some (OSeries a) ->
  s_index a = s_index r ->
  exists hs σ',
    LhbSeries.swrad_in rad albedo σ = Ok (hs, σ')
    /\ s_index hs = s_index r
    /\ s_values hs =
         zip_with (lift2 Rminus) (s_values r)
           (assign (map (fun c => cgt c 5) (s_values r))
              (map (lift1 (Rmult 0)) (s_values r))
              (zip_with (lift2 Rmult)
                 (select (map (fun c => cgt c 5) (s_values r)) (s_values r))
                 (select (map (fun c => cgt c 5) (s_values r)) (s_values a))))
    /\ σ ⊆ σ'.
Proof.
  intros Hr Ha Hix.
  set (l := fresh (dom σ)).
  assert (Hl : σ !! l = None) by apply fresh_unused.
  assert (Hrl : rad <> l) by congruence.
  assert (Hal : albedo <> l) by congruence.
  unfold LhbSeries.swrad_in, mbind, Py_bind.
  rewrite (load_series_eq _ _ _ Hr). unfold alloc. fold l. cbv zeta.
  rewrite (load_series_eq rad _ r) by (by rewrite lookup_insert_ne).
  rewrite (load_series_eq albedo _ a) by (by rewrite lookup_insert_ne).
  rewrite (s_loc_eq r) by done.
  rewrite (s_loc_eq a) by done.
  rewrite !lift_res_Ok.
  unfold s_mul. rewrite s_binop_eq by (simpl; by rewrite Hix).
  rewrite lift_res_Ok.
  rewrite (load_series_eq l _ (s_scale 0 (s_copy r))) by (by rewrite lookup_insert_eq).
  rewrite (load_series_eq rad _ r) by (by rewrite lookup_insert_ne).
  rewrite s_loc_set_eq by done.
  rewrite lift_res_Ok. unfold store_obj.
  rewrite (load_series_eq rad _ r) by (by rewrite !lookup_insert_ne).
  erewrite (load_series_eq l) by (by rewrite lookup_insert_eq).
  unfold s_sub. rewrite s_binop_eq by done. rewrite lift_res_Ok.
  eexists _, _. split; [reflexivity|]. simpl. split; [done|]. split; [done|].
  rewrite insert_insert_eq. by apply insert_subseteq.
Qed.

(** [swrad_in] writes into its own copy only. *)
Lemma swrad_in_leaves_store rad albedo :
  leaves_store (LhbSeries.swrad_in rad albedo).
Proof.
  intros σ hs σ' Hrun. unfold LhbSeries.swrad_in in Hrun. py_inv Hrun.
  subst. rewrite insert_insert_eq. apply insert_subseteq, fresh_unused.
Qed.

(** C5: for every incoming radiation and every albedo between 0 and 1, the
    absorbed shortwave radiation is the radiation itself when it is at most 5,
    and the radiation times one minus the albedo when it is above 5. *)
Theorem swrad_in_absorbed σ rad albedo r a :
  σ !! rad = Some (OSeries r) -> σ !! albedo = Some (OSeries a) ->
  s_index a = s_index r ->
  exists hs σ',
    LhbSeries.swrad_in rad albedo σ = Ok (hs, σ')
    /\ s_index hs = s_index r
    /\ forall i x al,
         s_values r !! i = Some (Some x) -> s_values a !! i = Some (Some al) ->
         0 <= al <= 1 ->
         (x <= 5 -> s_values hs !! i = Some (Some x))
         /\ (5 < x -> s_values hs !! i = Some (Some (x * (1 - al)))).
Proof.
  intros Hr Ha Hix.
  destruct (swrad_in_run σ rad albedo r a Hr Ha Hix) as (hs & σ' & Hrun & Hi & Hv & _).
  exists hs, σ'. split; [done|]. split; [done|].
  intros i x al Hx Hal _. rewrite Hv.
  assert (Hout := lookup_assign_select (lift2 Rmult)
                    (map (fun c => cgt c 5) (s_values r))
                    (map (lift1 (Rmult 0)) (s_values r))
                    (s_values r) (s_values a) i (cgt (Some x) 5)
                    (lift1 (Rmult 0) (Some x)) (Some x) (Some al)).
  rewrite !list_lookup_fmap, Hx in Hout. specialize (Hout eq_refl eq_refl eq_refl Hal).
  split; intros Hcmp; apply lookup_zip_with_Some; eexists _, _;
    (split; [|split; [exact Hx | exact Hout]]); simpl.
  - rewrite bool_decide_eq_false_2 by lra. simpl. do 2 f_equal. lra.
  - rewrite bool_decide_eq_true_2 by lra. simpl. do 2 f_equal. lra.
Qed.

Lemma swrad_in_absorbed_witness :
  exists hs σ',
    LhbSeries.swrad_in 1%positive 2%positive ex_meteo = Ok (hs, σ')
    /\ s_values hs !! 0%nat = Some (Some 3)
    /\ s_values hs !! 1%nat = Some (Some (800 * (1 - 0.1))).
Proof.
  destruct (swrad_in_absorbed ex_meteo 1%positive 2%positive ex_rad ex_albedo)
    as (hs & σ' & Hrun & _ & Hv); [reflexivity | reflexivity | reflexivity |].
  exists hs, σ'. split; [exact Hrun|]. split.
  - refine (proj1 (Hv 0%nat 3 0.1 _ _ _) _); [reflexivity | reflexivity | lra | lra].
  - refine (proj2 (Hv 1%nat 800 0.1 _ _ _) _); [reflexivity | reflexivity | lra | lra].
Defined.

(** ** The heat content *)

Lemma mapM_res_lookup {A B} (f : A -> res B) (l : list A) ys (i : nat) x :
  mapM_res f l = Ok ys -> l !! i = Some x ->
  exists y, f x = Ok y /\ ys !! i = Some y.
Proof.
  revert ys i. induction l as [|a l IH]; intros ys i Hm Hl; [done|].
  simpl in Hm. apply res_bind_Ok in Hm as (y & Hy & Hm).
  apply res_bind_Ok in Hm as (ys' & Hys & Hm). simplify_eq.
  destruct i as [|i]; simpl in *.
  - simplify_eq. eauto.
  - eauto.
Qed.

Lemma forallb_isna (row : list cell) :
  Forall (fun c => c = None) row -> forallb isna row = true.
Proof. induction 1 as [|c row -> _ IH]; [done | simpl; exact IH]. Qed.

(** A row that is all missing stays all missing when a column is assigned
    whose entry in that row is missing. *)
Lemma iloc_d_set_isna i name col d row row' :
  iloc i d = Ok row -> Forall (fun c => c = None) row ->
  col !! i = Some None ->
  iloc i (d_set name col d) = Ok row' -> forallb isna row' = true.
Proof.
  unfold iloc, d_set. simpl. generalize (d_columns d). intros cols.
  revert row row'. induction cols as [|[n c0] cols IH]; intros row row' Hrow Hna Hcol Hrow'.
  - simpl in Hrow'. rewrite Hcol in Hrow'. simpl in Hrow'. by simplify_eq.
  - simpl in Hrow. apply res_bind_Ok in Hrow as (y & Hy & Hrow).
    apply res_bind_Ok in Hrow as (ys & Hys & Hrow). simplify_eq.
    apply Forall_cons in Hna as [-> Hna].
    simpl in Hrow'. destruct (decide (n = name)) as [->|Hn]; simpl in Hrow'.
    + rewrite Hcol in Hrow'. simpl in Hrow'. rewrite Hys in Hrow'. simpl in Hrow'.
      simplify_eq. simpl. by apply forallb_isna.
    + rewrite Hy in Hrow'. simpl in Hrow'.
      apply res_bind_Ok in Hrow' as (ys' & Hys' & Hrow'). simplify_eq. simpl.
      eapply IH; eauto.
Qed.

(** The entry of a column in row [i] is one of the values of that row. *)
Lemma d_get_in_row i name d c row :
  d_get name d = Ok c -> iloc i d = Ok row ->
  exists x, c !! i = Some x /\ x ∈ row.
Proof.
  unfold d_get, iloc. generalize (d_columns d). intros cols.
  revert row. induction cols as [|[n c0] cols IH]; intros row Hc Hrow; [done|].
  simpl in Hrow. apply res_bind_Ok in Hrow as (y & Hy & Hrow).
  apply res_bind_Ok in Hrow as (ys & Hys & Hrow). simplify_eq.
  simpl in Hc, Hy. destruct (decide (n = name)) as [->|Hn].
  - simplify_eq. destruct (c !! i) as [x|]; [|done]. simplify_eq.
    exists y. split; [done | by left].
  - destruct (IH ys Hc Hys) as (x & Hx & Hin). exists x. split; [done | by right].
Qed.

Section HeatContent.
Variable pyl : list cell -> list cell -> list cell -> list cell -> res cell.

Lemma heat_content_row_isna td dd bd i row y :
  iloc i td = Ok row -> forallb isna row = true ->
  heat_content_row pyl td dd bd i = Ok y -> y = None.
Proof.
  intros Hrow Hna Hy. unfold heat_content_row in Hy.
  apply res_bind_Ok in Hy as (drow & Hd & Hy).
  apply res_bind_Ok in Hy as (trow & Ht & Hy).
  rewrite Hrow in Ht. simplify_eq.
  destruct (decide _); [|done]. rewrite Hna in Hy. by simplify_eq.
Qed.

(** What a run of [heat_content] that returned has done, statement by
    statement.  The temperature and the depth table may be one object. *)
Lemma heat_content_inv σ t d b H σ' :
  heat_content pyl t d b σ = Ok (H, σ') ->
  exists td c dd0 td2 c2 dd3 td3 bd h,
    let σ1 := <[t := OFrame (d_set "0" c td)]> σ in
    let dd2 := d_set "0" (replicate (length (d_index dd0)) (Some 0)) dd0 in
    let σ2 := <[d := OFrame dd2]> σ1 in
    σ !! t = Some (OFrame td) /\ d_get "0.45" td = Ok c
    /\ σ1 !! d = Some (OFrame dd0)
    /\ σ2 !! t = Some (OFrame td2) /\ d_get "0.45" td2 = Ok c2
    /\ d_loc_set dd2 (col_isna (d_index td2) c2) "0" None = Ok dd3
    /\ σ' = <[d := OFrame dd3]> σ1
    /\ σ' !! t = Some (OFrame td3) /\ σ' !! b = Some (OFrame bd)
    /\ mapM_res (heat_content_row pyl td3 dd3 bd) (seq 0 (length (d_index td3)))
       = Ok h
    /\ H = mkSeries (d_index td3) h.
Proof.
  intros Hrun. unfold heat_content in Hrun. py_inv Hrun.
  repeat match goal with
         | Hl : <[d := _]> _ !! d = Some _ |- _ =>
             rewrite lookup_insert_eq in Hl; injection Hl as <-
         end.
  rewrite insert_insert_eq in *.
  do 9 eexists. cbv zeta.
  repeat match goal with |- _ /\ _ => split end; try eassumption; reflexivity.
Qed.

(** The run of [heat_content] on two tables over one index, held by two
    objects. *)
Lemma heat_content_run σ t d b td dd c :
  σ !! t = Some (OFrame td) -> σ !! d = Some (OFrame dd) -> t <> d ->
  d_get "0.45" td = Ok c -> d_index td = d_index dd ->
  let td' := d_set "0" c td in
  let dd' := d_set "0" (surface_depth c (length (d_index dd))) dd in
  let σ' := <[d := OFrame dd']> (<[t := OFrame td']> σ) in
  heat_content pyl t d b σ
  = match σ' !! b with
    | Some (OFrame bd) =>
        match mapM_res (heat_content_row pyl td' dd' bd)
                       (seq 0 (length (d_index td))) with
        | Ok h => Ok (mkSeries (d_index td) h, σ')
        | Raise e => Raise e
        end
    | _ => Raise TypeError
    end.
Proof.
  intros Ht Hd Hne Hc Hix td' dd' σ'.
  unfold heat_content, mbind, Py_bind.
  rewrite (load_frame_eq _ _ _ Ht), Hc, lift_res_Ok. unfold store_obj.
  fold td'.
  rewrite (load_frame_eq d _ dd) by (by rewrite lookup_insert_ne).
  rewrite (load_frame_eq t _ td') by (by rewrite lookup_insert_ne, lookup_insert_eq).
  assert (Hc' : d_get "0.45" td' = Ok c).
  { unfold td'. by rewrite d_get_d_set_ne. }
  rewrite Hc', lift_res_Ok.
  erewrite (load_frame_eq d) by (by rewrite lookup_insert_eq).
  rewrite (d_loc_set_eq _ _ _ _ (replicate (length (d_index dd)) (Some 0)))
    by (by rewrite ?d_index_d_set, ?d_get_d_set_eq).
  rewrite lift_res_Ok, d_set_d_set, insert_insert_eq.
  fold (surface_depth c (length (d_index dd))). fold dd'. fold σ'.
  rewrite (load_frame_eq t _ td') by (by unfold σ'; rewrite lookup_insert_ne, lookup_insert_eq).
  rewrite (load_frame_eq d _ dd') by (by unfold σ'; rewrite lookup_insert_eq).
  unfold load_frame.
  destruct (σ' !! b) as [[s0|bd]|]; [done| |done].
  change (d_index td') with (d_index td). unfold lift_res.
  by destruct (mapM_res (heat_content_row pyl td' dd' bd) _).
Qed.

(** Any object other than the two tables is as it was. *)
Lemma heat_content_frame σ t d b H σ' :
  heat_content pyl t d b σ = Ok (H, σ') ->
  forall l, l <> t -> l <> d -> σ' !! l = σ !! l.
Proof.
  intros Hrun l Hlt Hld.
  apply heat_content_inv in Hrun
    as (td0 & c & dd0 & td2 & c2 & dd3 & td3 & bd & h & Hrun).
  cbv zeta in Hrun.
  destruct Hrun as (_ & _ & _ & _ & _ & _ & -> & _).
  by rewrite !lookup_insert_ne.
Qed.

(** The two tables after a run that returned: each has its column "0"
    assigned, and nothing else is changed. *)
Lemma heat_content_tables σ t d b H σ' :
  heat_content pyl t d b σ = Ok (H, σ') -> t <> d ->
  exists td dd c,
    σ !! t = Some (OFrame td) /\ σ !! d = Some (OFrame dd)
    /\ d_get "0.45" td = Ok c /\ d_index td = d_index dd
    /\ σ' !! t = Some (OFrame (d_set "0" c td))
    /\ σ' !! d
       = Some (OFrame (d_set "0" (surface_depth c (length (d_index dd))) dd)).
Proof.
  intros Hrun Hne.
  apply heat_content_inv in Hrun
    as (td & c & dd & td2 & c2 & dd3 & td3 & bd & h & Hrun).
  cbv zeta in Hrun.
  destruct Hrun as (Ht & Hc & Hd & Ht2 & Hc2 & Hset & -> & _).
  rewrite lookup_insert_ne in Hd by done.
  rewrite lookup_insert_ne, lookup_insert_eq in Ht2 by done. injection Ht2 as <-.
  rewrite d_get_d_set_ne, Hc in Hc2 by done. injection Hc2 as <-.
  apply d_loc_set_inv in Hset as (Hix & z & Hz & ->).
  rewrite d_get_d_set_eq in Hz. injection Hz as <-.
  exists td, dd, c. repeat split; try done.
  - by rewrite lookup_insert_ne, lookup_insert_eq.
  - by rewrite lookup_insert_eq, d_set_d_set.
Qed.


End HeatContent.

(** The sample tables run through [heat_content]. *)
Lemma ex_tables_run :
  heat_content ex_pylake 1%positive 2%positive 3%positive ex_tables
  = Ok (mkSeries ex_hour [None; Some 1], ex_tables_after).
Proof.
  rewrite (heat_content_run ex_pylake ex_tables 1 2 3 ex_temp ex_depth [None; Some 6]);
    [reflexivity | reflexivity | reflexivity | done | reflexivity | reflexivity].
Qed.

Lemma ex_gap_run :
  heat_content ex_pylake 1%positive 2%positive 3%positive ex_gap
  = Ok (mkSeries [0%Z] [Some 1], ex_gap_after).
Proof.
  rewrite (heat_content_run ex_pylake ex_gap 1 2 3 ex_gap_temp ex_gap_depth [None]);
    [reflexivity | reflexivity | reflexivity | done | reflexivity | reflexivity].
Qed.

(** C4: at a timestamp whose temperature profile is missing at every depth,
    the heat content is missing, and so is not zero. *)
Theorem heat_content_undefined pyl σ t d b H σ' td i row :
  heat_content pyl t d b σ = Ok (H, σ') ->
  σ !! t = Some (OFrame td) ->
  (i < length (d_index td))%nat ->
  iloc i td = Ok row -> Forall (fun c => c = None) row ->
  s_values H !! i = Some None /\ s_values H !! i <> Some (Some 0).
Proof.
  intros Hrun Ht Hi Hrow Hna.
  cut (s_values H !! i = Some None); [intros ->; split; [done | discriminate]|].
  apply heat_content_inv in Hrun
    as (td0 & c & dd0 & td2 & c2 & dd3 & td3 & bd & h & Hrun).
  cbv zeta in Hrun.
  destruct Hrun as (Ht0 & Hc & Hd0 & Ht2 & Hc2 & Hset & -> & Ht3 & Hb & Hloop & ->).
  rewrite Ht in Ht0. injection Ht0 as <-.
  destruct (d_get_in_row i _ _ _ _ Hc Hrow) as (x & Hx & Hin).
  apply (proj1 (Forall_forall _ _) Hna) in Hin. subst x.
  assert (Hfin : exists col, td3 = d_set "0" col td /\ col !! i = Some None).
  { destruct (decide (t = d)) as [<-|Hne].
    - rewrite lookup_insert_eq in Hd0, Ht2, Ht3.
      injection Hd0 as <-. injection Ht2 as <-. injection Ht3 as <-.
      rewrite !d_get_d_set_ne, Hc in Hc2 by done. injection Hc2 as <-.
      apply d_loc_set_inv in Hset as (_ & z & Hz & ->).
      rewrite d_get_d_set_eq in Hz. injection Hz as <-.
      rewrite !d_set_d_set. eexists. split; [reflexivity|].
      apply lookup_zip_with_Some. exists true, (Some 0).
      split; [done|]. split.
      + by rewrite list_lookup_fmap, Hx.
      + apply lookup_replicate_2. exact Hi.
    - rewrite lookup_insert_ne, lookup_insert_eq in Ht3 by done.
      injection Ht3 as <-. eauto. }
  destruct Hfin as (col & -> & Hcol).
  rewrite d_index_d_set in Hloop.
  destruct (mapM_res_lookup _ _ _ i i Hloop) as (y & Hy & Hyi).
  { by apply lookup_seq_lt. }
  simpl. rewrite Hyi. f_equal.
  unfold heat_content_row in Hy.
  apply res_bind_Ok in Hy as (drow & Hd & Hy).
  apply res_bind_Ok in Hy as (trow & Htr & Hy).
  destruct (decide _); [|done].
  rewrite (iloc_d_set_isna _ _ _ _ _ _ Hrow Hna Hcol Htr) in Hy. by simplify_eq.
Qed.

Lemma heat_content_undefined_witness :
  s_values (mkSeries ex_hour [None; Some 1]) !! 0%nat = Some None
  /\ s_values (mkSeries ex_hour [None; Some 1]) !! 0%nat <> Some (Some 0).
Proof.
  apply (heat_content_undefined ex_pylake ex_tables 1 2 3 _ _ ex_temp 0 [None; None]
           ex_tables_run).
  - reflexivity.
  - simpl. lia.
  - reflexivity.
  - repeat constructor.
Defined.

(** ** Which objects a call changes *)

Lemma elementwise1_leaves_store f a : leaves_store (elementwise1 f a).
Proof. intros σ s σ' H. unfold elementwise1 in H. py_inv H. done. Qed.

Lemma elementwise2_leaves_store f a b : leaves_store (elementwise2 f a b).
Proof. intros σ s σ' H. unfold elementwise2 in H. py_inv H. done. Qed.

Lemma elementwise3_leaves_store f a b c : leaves_store (elementwise3 f a b c).
Proof.
  intros σ s σ' H. unfold elementwise3 in H. py_inv H.
  destruct (decide _); py_inv H; done.
Qed.

Lemma sensible_heat_leaves_store psy f1 wtemp temp :
  leaves_store (LhbSeries.sensible_heat psy f1 wtemp temp).
Proof. intros σ s σ' H. unfold LhbSeries.sensible_heat in H. py_inv H. done. Qed.

Lemma heat_balance_leaves_store hs ha hw he hc :
  leaves_store (LhbSeries.heat_balance hs ha hw he hc).
Proof. intros σ s σ' H. unfold LhbSeries.heat_balance in H. py_inv H. done. Qed.

(** C2, as stated, fails: [heat_content] returns with the temperature table of
    its caller changed, a column "0" added to it. *)
Lemma heat_content_changes_input :
  heat_content ex_pylake 1%positive 2%positive 3%positive ex_tables
  = Ok (mkSeries ex_hour [None; Some 1], ex_tables_after)
  /\ ex_tables !! 1%positive = Some (OFrame ex_temp)
  /\ ex_tables_after !! 1%positive = Some (OFrame ex_temp_after)
  /\ ex_temp_after <> ex_temp.
Proof.
  split; [apply ex_tables_run|].
  split; [reflexivity|]. split; [reflexivity|].
  intros Heq. discriminate Heq.
Qed.

(** C2, amended: no flux function changes an object of its caller, and
    [heat_content] changes none but the temperature table and the depth table,
    in each of which it assigns the column "0"; the bathymetric curve is as it
    was. *)
Theorem core_inputs_unchanged :
  (forall a b c d e : loc,
      leaves_store (LhbSeries.atm_emmissivity a b c)
      /\ leaves_store (LhbSeries.swrad_in a b)
      /\ leaves_store (LhbSeries.absorved_lw a b)
      /\ leaves_store (LhbSeries.emmited_lw a)
      /\ leaves_store (LhbSeries.sat_vaporpress a)
      /\ leaves_store (LhbSeries.transfer_function a b c)
      /\ leaves_store (LhbSeries.latent_heat a b c)
      /\ leaves_store (LhbSeries.vapor_pressure a b)
      /\ leaves_store (LhbSeries.psychrometric_constant a)
      /\ leaves_store (LhbSeries.sensible_heat a b c d)
      /\ leaves_store (LhbSeries.heat_balance a b c d e))
  /\ (forall pyl t d b σ H σ',
        heat_content pyl t d b σ = Ok (H, σ') ->
        (forall l, l <> t -> l <> d -> σ' !! l = σ !! l)
        /\ (t <> d ->
            exists td dd c,
              σ !! t = Some (OFrame td) /\ σ !! d = Some (OFrame dd)
              /\ d_get "0.45" td = Ok c
              /\ σ' !! t = Some (OFrame (d_set "0" c td))
              /\ σ' !! d
                 = Some (OFrame
                           (d_set "0" (surface_depth c (length (d_index dd))) dd)))).
Proof.
  split.
  - intros a b c d e.
    repeat match goal with |- _ /\ _ => split end;
      first [ apply elementwise1_leaves_store
            | apply elementwise2_leaves_store
            | apply elementwise3_leaves_store
            | apply swrad_in_leaves_store
            | apply sensible_heat_leaves_store
            | apply heat_balance_leaves_store ].
  - intros pyl t d b σ H σ' Hrun. split.
    + by apply (heat_content_frame pyl σ t d b H σ').
    + intros Hne.
      destruct (heat_content_tables pyl σ t d b H σ' Hrun Hne)
        as (td & dd & c & Ht & Hd & Hc & _ & Ht' & Hd').
      by exists td, dd, c.
Qed.

(** ** The point at the surface *)

(** C6, as stated, fails: with no reading at 0.45 m and a reading of 5 degC at
    1.5 m, the shallowest defined reading is 5 degC, and the point at depth 0
    has no temperature. *)
Lemma surface_reading_counterexample :
  heat_content ex_pylake 1%positive 2%positive 3%positive ex_gap
  = Ok (mkSeries [0%Z] [Some 1], ex_gap_after)
  /\ iloc 0 ex_gap_temp = Ok [None; Some 5]
  /\ iloc 0 ex_gap_depth = Ok [Some 0.45; Some 1.5]
  /\ shallowest_reading [Some 0.45; Some 1.5] [None; Some 5] 5
  /\ ex_gap_after !! 1%positive = Some (OFrame ex_gap_temp_after)
  /\ d_get "0" ex_gap_temp_after = Ok [None].
Proof.
  split; [apply ex_gap_run|].
  split; [reflexivity|]. split; [reflexivity|].
  split; [|split; reflexivity].
  exists 1%nat, 1.5. split; [reflexivity|]. split; [reflexivity|].
  intros [|[|k]] d' v' Hv Hd; simpl in *; simplify_eq. lra.
Qed.

(** C6, amended: at every timestamp [heat_content] takes the temperature of
    the point at depth 0 from the reading in column "0.45" of that timestamp,
    as it is; where that reading is there the point has depth 0, and where it
    is missing the point has neither a temperature nor a depth. *)
Theorem surface_reading_from_sensor pyl σ t d b H σ' td dd :
  heat_content pyl t d b σ = Ok (H, σ') ->
  σ !! t = Some (OFrame td) -> σ !! d = Some (OFrame dd) -> t <> d ->
  exists c td' dd' depth0,
    d_get "0.45" td = Ok c
    /\ σ' !! t = Some (OFrame td') /\ σ' !! d = Some (OFrame dd')
    /\ d_get "0" td' = Ok c /\ d_get "0" dd' = Ok depth0
    /\ forall i x,
         c !! i = Some x -> (i < length (d_index dd))%nat ->
         depth0 !! i = Some (if isna x then None else Some 0).
Proof.
  intros Hrun Ht Hd Hne.
  destruct (heat_content_tables pyl σ t d b H σ' Hrun Hne)
    as (td0 & dd0 & c & Ht0 & Hd0 & Hc & _ & Ht' & Hd').
  rewrite Ht in Ht0. injection Ht0 as <-.
  rewrite Hd in Hd0. injection Hd0 as <-.
  eexists c, _, _, _. split; [exact Hc|]. split; [exact Ht'|]. split; [exact Hd'|].
  split; [apply d_get_d_set_eq|]. split; [apply d_get_d_set_eq|].
  intros i x Hx Hi. unfold surface_depth. apply lookup_zip_with_Some.
  exists (isna x), (Some 0). split; [done|]. split.
  - by rewrite list_lookup_fmap, Hx.
  - by apply lookup_replicate_2.
Qed.

Lemma surface_reading_from_sensor_witness :
  exists c td' dd' depth0,
    d_get "0.45" ex_temp = Ok c
    /\ ex_tables_after !! 1%positive = Some (OFrame td')
    /\ ex_tables_after !! 2%positive = Some (OFrame dd')
    /\ d_get "0" td' = Ok c /\ d_get "0" dd' = Ok depth0
    /\ forall i x,
         c !! i = Some x -> (i < length (d_index ex_depth))%nat ->
         depth0 !! i = Some (if isna x then None else Some 0).
Proof.
  apply (surface_reading_from_sensor ex_pylake ex_tables 1 2 3 _ _ ex_temp ex_depth
           ex_tables_run); [reflexivity | reflexivity | done].
Defined.

(** ** The residual power *)

Lemma nanmax_bounded (l : list cell) a0 :
  (forall a, Some a ∈ l -> a <= a0) ->
  nanmax l = None \/ exists m, nanmax l = Some m /\ m <= a0.
Proof.
  induction l as [|c l IH]; intros Hb; [by left|].
  assert (Hb' : forall a, Some a ∈ l -> a <= a0).
  { intros a Ha. apply Hb. by right. }
  destruct c as [a|]; [|exact (IH Hb')].
  right. assert (Ha : a <= a0) by (apply Hb; by left).
  destruct (IH Hb') as [Hn | (m & Hm & Hle)].
  - exists a. simpl. by rewrite Hn.
  - exists (Rmax a m). simpl. rewrite Hm. split; [done|]. by apply Rmax_lub.
Qed.

(** [.max()] is the entry that no entry exceeds; missing entries do not
    count. *)
Lemma nanmax_greatest (l : list cell) a0 :
  Some a0 ∈ l -> (forall a, Some a ∈ l -> a <= a0) -> nanmax l = Some a0.
Proof.
  induction l as [|c l IH]; intros Hin Hb; [by apply elem_of_nil in Hin|].
  assert (Hb' : forall a, Some a ∈ l -> a <= a0).
  { intros a Ha. apply Hb. by right. }
  apply elem_of_cons in Hin as [<- | Hin].
  - simpl. destruct (nanmax_bounded l a0 Hb') as [-> | (m & -> & Hle)]; [done|].
    f_equal. by apply Rmax_left.
  - simpl. rewrite (IH Hin Hb'). destruct c as [a|]; [|done].
    simpl. f_equal. apply Rmax_right. apply Hb. by left.
Qed.

Lemma area_at_lookup d depths areas a :
  area_at d depths areas = Some a ->
  exists k, depths !! k = Some (Some d) /\ areas !! k = Some (Some a).
Proof.
  revert areas. induction depths as [|[x|] depths IH]; intros areas H; [done| |].
  - destruct areas as [|c areas]; [done|]. simpl in H.
    destruct (decide (x = d)) as [->|Hne].
    + subst c. by exists 0%nat.
    + destruct (IH _ H) as (k & Hd & Ha). by exists (S k).
  - destruct areas as [|c areas]; [done|]. simpl in H.
    destruct (IH _ H) as (k & Hd & Ha). by exists (S k).
Qed.

(** Over a curve measured from the surface whose area does not increase
    with the depth, the largest area is the area at depth 0. *)
Lemma nanmax_surface_area depths areas a0 :
  area_nonincreasing depths areas -> depths_from_surface depths areas ->
  area_at 0 depths areas = Some a0 ->
  nanmax areas = Some a0.
Proof.
  intros Hmono Hsurf Ha0. destruct (area_at_lookup _ _ _ _ Ha0) as (k & Hdk & Hak).
  apply nanmax_greatest.
  - by apply list_elem_of_lookup_2 in Hak.
  - intros a Ha. apply list_elem_of_lookup_1 in Ha as (j & Hj).
    destruct (Hsurf j a Hj) as (dj & Hdj & Hpos).
    by apply (Hmono k j 0 dj a0 a).
Qed.


Lemma diff_from_lookup prev (l : list cell) (i : nat) x y :
  (prev :: l) !! i = Some x -> l !! i = Some y ->
  diff_from prev l !! i = Some (lift2 Rminus y x).
Proof.
  revert prev i. induction l as [|a l IH]; intros prev i Hx Hy; [done|].
  destruct i as [|i]; simpl in *.
  - by simplify_eq.
  - by apply IH.
Qed.

Lemma diff_lookup (l : list cell) (i : nat) x y :
  l !! i = Some x -> l !! S i = Some y ->
  diff l !! S i = Some (lift2 Rminus y x).
Proof.
  destruct l as [|a l]; [done|]. simpl. intros Hx Hy. by apply diff_from_lookup.
Qed.

Lemma elapsed_from_lookup prev (ix : list label) (i : nat) t0 t1 :
  (prev :: ix) !! i = Some t0 -> ix !! i = Some t1 ->
  elapsed_from prev ix !! i = Some (Some (IZR (t1 - t0) / 1e9)).
Proof.
  revert prev i. induction ix as [|a ix IH]; intros prev i H0 H1; [done|].
  destruct i as [|i]; simpl in *.
  - by simplify_eq.
  - by apply IH.
Qed.

Lemma elapsed_lookup (ix : list label) (i : nat) t0 t1 :
  ix !! i = Some t0 -> ix !! S i = Some t1 ->
  elapsed ix !! S i = Some (Some (IZR (t1 - t0) / 1e9)).
Proof.
  destruct ix as [|a ix]; [done|]. simpl. intros H0 H1. by apply elapsed_from_lookup.
Qed.

Lemma heat_rate_eq heatc :
  heat_rate heatc
  = Ok (mkSeries (s_index heatc)
          (zip_with cdiv (diff (s_values heatc)) (elapsed (s_index heatc)))).
Proof. unfold heat_rate, s_div. by rewrite s_binop_eq. Qed.





Lemma ex_bath_nonincreasing :
  area_nonincreasing [Some 0; Some 1; Some 2] [Some 10000; Some 6000; Some 1000].
Proof.
  intros [|[|[|i]]] [|[|[|j]]] di dj ai aj Hdi Hdj Hai Haj Hle;
    simpl in *; simplify_eq; lra.
Qed.

Lemma ex_bath_from_surface :
  depths_from_surface [Some 0; Some 1; Some 2] [Some 10000; Some 6000; Some 1000].
Proof.
  intros [|[|[|j]]] aj Haj; simpl in Haj; simplify_eq;
    eexists; (split; [reflexivity | lra]).
Qed.


(** ** The flow *)

Lemma linspace_length a b n : length (linspace a b n) = n.
Proof.
  destruct n as [|[|n]]; [done | done |].
  unfold linspace. rewrite length_app, length_map, length_seq. simpl. lia.
Qed.

(** The samples of [linspace] lie on the line from [a] to [b]. *)
Lemma linspace_lookup a b n i :
  (i < n)%nat ->
  exists T, linspace a b n !! i = Some T
            /\ (n = 1%nat -> T = a)
            /\ ((1 < n)%nat -> T = a + INR i * ((b - a) / INR (n - 1))).
Proof.
  intros Hi. destruct n as [|[|n]]; [lia | |].
  - assert (i = 0%nat) as -> by lia. exists a. split; [done|]. split; [done | lia].
  - unfold linspace.
    replace (S (S n) - 1)%nat with (S n) by lia.
    assert (HS : INR (S n) <> 0) by (apply not_0_INR; lia).
    destruct (decide (i < S n)%nat) as [Hlt | Hge].
    + exists (INR i * ((b - a) / INR (S n)) + a). split; [|split; [lia | intros _; lra]].
      rewrite lookup_app_l by (rewrite length_map, length_seq; lia).
      rewrite list_lookup_fmap, lookup_seq_lt by lia. done.
    + assert (i = S n) as -> by lia. exists b. split; [|split; [lia | intros _; field; done]].
      rewrite lookup_app_r by (rewrite length_map, length_seq; lia).
      rewrite length_map, length_seq, Nat.sub_diag. done.
Qed.

(** A sample between two positive ends is positive. *)
Lemma linspace_pos a b n i T :
  0 < a -> 0 < b -> linspace a b n !! i = Some T -> 0 < T.
Proof.
  intros Ha Hb HT.
  assert (Hi : (i < n)%nat).
  { apply lookup_lt_Some in HT. by rewrite linspace_length in HT. }
  destruct (linspace_lookup a b n i Hi) as (T' & HT' & H1 & Hn).
  rewrite HT in HT'. injection HT' as <-.
  destruct (decide (n = 1%nat)) as [->|Hne]; [rewrite H1; done|].
  rewrite Hn by lia.
  assert (Hd : 0 < INR (n - 1)) by (apply lt_0_INR; lia).
  assert (Hle : INR i <= INR (n - 1)) by (apply le_INR; lia).
  assert (H0 : 0 <= INR i) by apply pos_INR.
  set (k := INR i / INR (n - 1)).
  assert (Hk : 0 <= k <= 1).
  { unfold k. split.
    - apply Rmult_le_pos; [done|]. left. by apply Rinv_0_lt_compat.
    - apply (Rmult_le_reg_r (INR (n - 1))); [done|].
      unfold Rdiv. rewrite Rmult_assoc, Rinv_l by lra. lra. }
  replace (a + INR i * ((b - a) / INR (n - 1))) with (a + k * (b - a))
    by (unfold k; field; lra).
  nra.
Qed.

(** C10: the assumed inflow temperature runs on a line from 2 degC to the
    largest surface temperature; when that largest temperature is positive and
    the density is positive, the heat per volume [dens0 T * 4186 * T] is
    positive at every timestamp, and the flow is the residual power divided by
    it. *)
Theorem flow_heat_positive dens0 td dhw t0 M :
  d_get "0" td = Ok t0 -> nanmax t0 = Some M -> 0 < M ->
  (forall T, 0 < dens0 T) ->
  exists wtemp wheat flow,
    flow_inference dens0 td dhw = Ok (wtemp, wheat, flow)
    /\ forall i, (i < length (s_values dhw))%nat ->
         exists T,
           s_values wtemp !! i = Some (Some T)
           /\ (length (s_values dhw) = 1%nat -> T = 2)
           /\ ((1 < length (s_values dhw))%nat ->
               T = 2 + INR i * ((M - 2) / INR (length (s_values dhw) - 1)))
           /\ s_values wheat !! i = Some (Some (dens0 T * 4186 * T))
           /\ 0 < dens0 T * 4186 * T
           /\ forall q, s_values dhw !! i = Some q ->
                s_values flow !! i
                = Some (lift1 (fun x => x / (dens0 T * 4186 * T)) q).
Proof.
  intros Ht0 Hmax HM Hdens.
  unfold flow_inference, flow_temp. rewrite Ht0. simpl. rewrite Hmax.
  eexists _, _, _. split; [reflexivity|]. simpl.
  intros i Hi.
  destruct (linspace_lookup 2 M _ i Hi) as (T & HT & H1 & Hn).
  assert (HTpos : 0 < T) by (eapply (linspace_pos 2 M); [lra | done | exact HT]).
  assert (Hw : 0 < dens0 T * 4186 * T).
  { specialize (Hdens T). apply Rmult_lt_0_compat; [|done]. lra. }
  assert (HwT : map (fun c => lift2 Rmult (lift2 Rmult (lift1 dens0 c) (Some 4186)) c)
                    (map Some (linspace 2 M (length (s_values dhw)))) !! i
                = Some (Some (dens0 T * 4186 * T))).
  { by rewrite !list_lookup_fmap, HT. }
  exists T. split; [by rewrite list_lookup_fmap, HT|].
  split; [exact H1|]. split; [exact Hn|]. split; [exact HwT|]. split; [exact Hw|].
  intros q Hq. apply lookup_zip_with_Some. eexists _, _.
  split; [|split; [exact Hq | exact HwT]].
  destruct q as [x|]; [|done]. simpl. rewrite decide_False by lra. done.
Qed.

Lemma flow_heat_positive_witness :
  exists wtemp wheat flow,
    flow_inference ex_dens0 ex_temp_after ex_heatc = Ok (wtemp, wheat, flow)
    /\ forall i, (i < length (s_values ex_heatc))%nat ->
         exists T,
           s_values wtemp !! i = Some (Some T)
           /\ (length (s_values ex_heatc) = 1%nat -> T = 2)
           /\ ((1 < length (s_values ex_heatc))%nat ->
               T = 2 + INR i * ((6 - 2) / INR (length (s_values ex_heatc) - 1)))
           /\ s_values wheat !! i = Some (Some (ex_dens0 T * 4186 * T))
           /\ 0 < ex_dens0 T * 4186 * T
           /\ forall q, s_values ex_heatc !! i = Some q ->
                s_values flow !! i
                = Some (lift1 (fun x => x / (ex_dens0 T * 4186 * T)) q).
Proof.
  apply (flow_heat_positive ex_dens0 ex_temp_after ex_heatc [None; Some 6] 6).
  - reflexivity.
  - reflexivity.
  - lra.
  - intros T. unfold ex_dens0. lra.
Defined.

(** ** The whole of [main] *)

(** A run of [main] that returned went through [heat_content], then through
    the residual power over the bathymetric curve and the flow over the
    temperature table as [heat_content] left it. *)
Lemma main_inv pyl dens0 t d b hnet dhdt dhw flow σ σ' :
  main pyl dens0 t d b hnet σ = Ok ((dhdt, dhw, flow), σ') ->
  exists heatc bd td' wtemp wheat,
    heat_content pyl t d b σ = Ok (heatc, σ')
    /\ σ' !! b = Some (OFrame bd) /\ σ' !! t = Some (OFrame td')
    /\ residual_power heatc hnet bd = Ok (dhdt, dhw)
    /\ flow_inference dens0 td' dhw = Ok (wtemp, wheat, flow).
Proof.
  intros Hrun. unfold main in Hrun. py_inv Hrun.
  injection Hrun as <- <- <-.
  repeat match goal with p : (_ * _)%type |- _ => destruct p end.
  simpl in *. subst. eauto 10.
Qed.

(** * Further properties *)

(** ** The flux formulas *)

Lemma pow4_nonneg x : 0 <= x ^ 4.
Proof. replace (x ^ 4) with ((x * x) * (x * x)) by ring. nra. Qed.

Lemma pow4_increasing a b : 0 <= a -> a < b -> a ^ 4 < b ^ 4.
Proof.
  intros Ha Hab.
  replace (a ^ 4) with ((a * a) * (a * a)) by ring.
  replace (b ^ 4) with ((b * b) * (b * b)) by ring.
  assert (H2 : a * a < b * b) by nra.
  assert (H0 : 0 <= a * a) by nra.
  nra.
Qed.

(** X1: the emitted longwave radiation is never positive, it is negative
    at every temperature but absolute zero, and it is the more negative the
    warmer the water. *)
Theorem emmited_lw_leaves :
  (forall wtemp, Lhb.emmited_lw wtemp <= 0)
  /\ (forall wtemp, wtemp <> -273.15 -> Lhb.emmited_lw wtemp < 0)
  /\ (forall w1 w2, -273.15 <= w1 -> w1 < w2 ->
        Lhb.emmited_lw w2 < Lhb.emmited_lw w1).
Proof.
  unfold Lhb.emmited_lw; cbv zeta. repeat split.
  - intros wtemp. assert (H := pow4_nonneg (wtemp + 273.15)). nra.
  - intros wtemp Hne.
    assert (H : 0 < (wtemp + 273.15) ^ 4).
    { replace ((wtemp + 273.15) ^ 4)
        with (((wtemp + 273.15) * (wtemp + 273.15)) * ((wtemp + 273.15) * (wtemp + 273.15)))
        by ring.
      assert (0 < (wtemp + 273.15) * (wtemp + 273.15)) by nra. nra. }
    nra.
  - intros w1 w2 H1 H12.
    assert (H := pow4_increasing (w1 + 273.15) (w2 + 273.15)). nra.
Qed.

(** X2: with an emissivity that is not negative the absorbed longwave
    radiation is not negative, and it grows with the emissivity. *)
Theorem absorved_lw_enters temp emi1 emi2 :
  0 <= emi1 -> emi1 <= emi2 ->
  0 <= Lhb.absorved_lw temp emi1
  /\ Lhb.absorved_lw temp emi1 <= Lhb.absorved_lw temp emi2.
Proof.
  intros H1 H12. unfold Lhb.absorved_lw; cbv zeta.
  assert (H := pow4_nonneg (temp + 273.15)).
  assert (Hm : 0 <= 5.67e-8 * (temp + 273.15) ^ 4) by nra.
  nra.
Qed.

Lemma atm_emmissivity_eq temp cc ew :
  0 < ew -> -273.15 < temp ->
  Lhb.atm_emmissivity temp cc ew
  = Some (0.98 * (1 + 0.17 * cc ^ 2) * 1.24
          * Rpower (ew / (temp + 273.15)) (1 / 7)).
Proof.
  intros He Ht. unfold Lhb.atm_emmissivity; cbv zeta. unfold cdiv.
  rewrite decide_False by lra. unfold root7.
  rewrite decide_True by (apply Rdiv_lt_0_compat; lra). reflexivity.
Qed.

(** X3: with a positive vapor pressure and a temperature above absolute
    zero the atmosphere emissivity is a positive number, and it does not
    decrease when the cloud cover increases. *)
Theorem atm_emmissivity_clouds temp cc1 cc2 ew :
  0 < ew -> -273.15 < temp -> 0 <= cc1 -> cc1 <= cc2 ->
  exists e1 e2,
    Lhb.atm_emmissivity temp cc1 ew = Some e1
    /\ Lhb.atm_emmissivity temp cc2 ew = Some e2
    /\ 0 < e1 /\ e1 <= e2.
Proof.
  intros He Ht H1 H12. rewrite !atm_emmissivity_eq by done.
  eexists _, _. split; [reflexivity|]. split; [reflexivity|].
  assert (Hp : 0 < Rpower (ew / (temp + 273.15)) (1 / 7)) by apply exp_pos.
  assert (Hc1 : 0 <= cc1 ^ 2) by (simpl; nra).
  assert (Hc : cc1 ^ 2 <= cc2 ^ 2) by (simpl; nra).
  split.
  - apply Rmult_lt_0_compat; [nra | exact Hp].
  - apply Rmult_le_compat_r; [lra | nra].
Qed.

(** X4: a negative vapor pressure gives no emissivity: the seventh root of a
    negative ratio is NaN. *)
Theorem atm_emmissivity_negative_pressure temp cc ew :
  ew < 0 -> -273.15 < temp -> Lhb.atm_emmissivity temp cc ew = None.
Proof.
  intros He Ht. unfold Lhb.atm_emmissivity; cbv zeta. unfold cdiv.
  rewrite decide_False by lra. unfold root7.
  assert (Hq : ew / (temp + 273.15) < 0).
  { unfold Rdiv. assert (0 < / (temp + 273.15)) by (apply Rinv_0_lt_compat; lra). nra. }
  rewrite decide_False by lra. rewrite decide_False by lra. reflexivity.
Qed.

(** X7: the transfer function is positive exactly when the water is less
    than [(4.8 + 1.98 * wind10) / 0.28] degrees colder than the air; with
    wind from 0 up it is positive down to 17 degrees colder. *)
Theorem transfer_function_sign wind10 wtemp temp :
  (0 < Lhb.transfer_function wind10 wtemp temp
   <-> - (4.8 + 1.98 * wind10) / 0.28 < wtemp - temp)
  /\ (0 <= wind10 -> -17 <= wtemp - temp ->
      0 < Lhb.transfer_function wind10 wtemp temp).
Proof.
  rewrite transfer_function_unfold. split; [split; intros H|intros Hw Ht]; lra.
Qed.

(** ** The flux functions on series *)

(** X8: [swrad_in] on missing values: a missing radiation gives a missing
    result; a radiation of at most 5 is returned as it is whatever the albedo,
    also when the albedo is missing; above 5 a missing albedo gives a missing
    result. *)
Theorem swrad_in_missing σ rad albedo r a :
  σ !! rad = Some (OSeries r) -> σ !! albedo = Some (OSeries a) ->
  s_index a = s_index r ->
  exists hs σ',
    LhbSeries.swrad_in rad albedo σ = Ok (hs, σ')
    /\ s_index hs = s_index r
    /\ forall i x al,
         s_values r !! i = Some x -> s_values a !! i = Some al ->
         (x = None -> s_values hs !! i = Some None)
         /\ (forall v, x = Some v -> v <= 5 -> s_values hs !! i = Some (Some v))
         /\ (forall v, x = Some v -> 5 < v -> al = None ->
               s_values hs !! i = Some None).
Proof.
  intros Hr Ha Hix.
  destruct (swrad_in_run σ rad albedo r a Hr Ha Hix) as (hs & σ' & Hrun & Hi & Hv & _).
  exists hs, σ'. split; [done|]. split; [done|].
  intros i x al Hx Hal. rewrite Hv.
  assert (Hout := lookup_assign_select (lift2 Rmult)
                    (map (fun c => cgt c 5) (s_values r))
                    (map (lift1 (Rmult 0)) (s_values r))
                    (s_values r) (s_values a) i (cgt x 5)
                    (lift1 (Rmult 0) x) x al).
  rewrite !list_lookup_fmap, Hx in Hout. specialize (Hout eq_refl eq_refl eq_refl Hal).
  assert (Hhs : zip_with (lift2 Rminus) (s_values r)
                  (assign (map (fun c => cgt c 5) (s_values r))
                     (map (lift1 (Rmult 0)) (s_values r))
                     (zip_with (lift2 Rmult)
                        (select (map (fun c => cgt c 5) (s_values r)) (s_values r))
                        (select (map (fun c => cgt c 5) (s_values r)) (s_values a)))) !! i
                = Some (lift2 Rminus x
                          (if cgt x 5 then lift2 Rmult x al else lift1 (Rmult 0) x))).
  { apply lookup_zip_with_Some. eexists _, _. split; [reflexivity|]. by split. }
  rewrite Hhs. split; [|split].
  - intros ->. reflexivity.
  - intros v -> Hle. simpl. rewrite bool_decide_eq_false_2 by lra. simpl.
    do 2 f_equal. lra.
  - intros v -> Hgt ->. simpl. rewrite bool_decide_eq_true_2 by lra. reflexivity.
Qed.

Lemma swrad_in_missing_witness :
  exists hs σ',
    LhbSeries.swrad_in 1%positive 2%positive ex_meteo = Ok (hs, σ')
    /\ s_values hs !! 0%nat = Some (Some 3).
Proof.
  destruct (swrad_in_missing ex_meteo 1%positive 2%positive ex_rad ex_albedo)
    as (hs & σ' & Hrun & _ & Hv); [reflexivity | reflexivity | reflexivity |].
  exists hs, σ'. split; [exact Hrun|].
  refine (proj1 (proj2 (Hv 0%nat (Some 3) (Some 0.1) _ _)) 3 _ _);
    [reflexivity | reflexivity | reflexivity | lra].
Defined.

Lemma lookup_zip_with_lift2 f (l k : list cell) (i : nat) x y :
  l !! i = Some x -> k !! i = Some y ->
  zip_with (lift2 f) l k !! i = Some (lift2 f x y).
Proof.
  intros Hl Hk. apply lookup_zip_with_Some. eexists _, _. by split.
Qed.

(** X9: [heat_balance] of five series over one index returns, changes no
    object, and gives at each label the sum of the five terms, missing as
    soon as one of them is missing. *)
Theorem heat_balance_sum σ hs ha hw he hc s a w e c :
  σ !! hs = Some (OSeries s) -> σ !! ha = Some (OSeries a) ->
  σ !! hw = Some (OSeries w) -> σ !! he = Some (OSeries e) ->
  σ !! hc = Some (OSeries c) ->
  s_index a = s_index s -> s_index w = s_index s ->
  s_index e = s_index s -> s_index c = s_index s ->
  exists hnet,
    LhbSeries.heat_balance hs ha hw he hc σ = Ok (hnet, σ)
    /\ s_index hnet = s_index s
    /\ forall i x1 x2 x3 x4 x5,
         s_values s !! i = Some x1 -> s_values a !! i = Some x2 ->
         s_values w !! i = Some x3 -> s_values e !! i = Some x4 ->
         s_values c !! i = Some x5 ->
         s_values hnet !! i
         = Some (match x1, x2, x3, x4, x5 with
                 | Some v1, Some v2, Some v3, Some v4, Some v5 =>
                     Some (Lhb.heat_balance v1 v2 v3 v4 v5)
                 | _, _, _, _, _ => None
                 end).
Proof.
  intros Hs Ha Hw He Hc Ia Iw Ie Ic.
  unfold LhbSeries.heat_balance, mbind, Py_bind.
  rewrite (load_series_eq _ _ _ Hs), (load_series_eq _ _ _ Ha),
    (load_series_eq _ _ _ Hw), (load_series_eq _ _ _ He), (load_series_eq _ _ _ Hc).
  rewrite s_binop_eq by done. rewrite lift_res_Ok.
  rewrite s_binop_eq by done. rewrite lift_res_Ok.
  rewrite s_binop_eq by done. rewrite lift_res_Ok.
  rewrite s_binop_eq by done. rewrite lift_res_Ok.
  eexists. split; [reflexivity|]. split; [reflexivity|].
  intros i x1 x2 x3 x4 x5 H1 H2 H3 H4 H5. simpl.
  rewrite (lookup_zip_with_lift2 Rplus _ _ i
             (lift2 Rplus (lift2 Rplus (lift2 Rplus x1 x2) x3) x4) x5); [| |done].
  - by destruct x1, x2, x3, x4, x5.
  - repeat (apply lookup_zip_with_lift2; [|done]). done.
Qed.

(** ** Runs of [heat_content] *)

Lemma get_col_absent name cols :
  name ∉ cols.*1 -> get_col name cols = Raise KeyError.
Proof.
  induction cols as [|[n c] cols IH]; intros Hn; [done|].
  simpl in *. apply not_elem_of_cons in Hn as [Hne Hn].
  rewrite decide_False by done. by apply IH.
Qed.

Lemma get_col_present name cols :
  name ∈ cols.*1 -> exists c, get_col name cols = Ok c /\ (name, c) ∈ cols.
Proof.
  induction cols as [|[n c] cols IH]; intros Hn; [by apply elem_of_nil in Hn|].
  simpl in *. destruct (decide (n = name)) as [->|Hne].
  - exists c. split; [done | by left].
  - apply elem_of_cons in Hn as [Heq | Hn]; [done|].
    destruct (IH Hn) as (c' & Hc' & Hin). exists c'. split; [done | by right].
Qed.

Lemma set_col_absent name c cols :
  name ∉ cols.*1 -> set_col name c cols = cols ++ [(name, c)].
Proof.
  induction cols as [|[n c0] cols IH]; intros Hn; [done|].
  simpl in *. apply not_elem_of_cons in Hn as [Hne Hn].
  rewrite decide_False by done. by rewrite IH.
Qed.

Lemma set_col_names_present name c cols :
  name ∈ cols.*1 -> (set_col name c cols).*1 = cols.*1.
Proof.
  induction cols as [|[n c0] cols IH]; intros Hn; [by apply elem_of_nil in Hn|].
  csimpl in *. destruct (decide (n = name)) as [->|Hne]; [done|].
  apply elem_of_cons in Hn as [Heq | Hn]; [done|]. csimpl. f_equal. by apply IH.
Qed.

Lemma set_col_length name c cols cols' :
  cols.*1 = cols'.*1 -> forall c', length (set_col name c cols) = length (set_col name c' cols').
Proof.
  revert cols'. induction cols as [|[n c0] cols IH]; intros [|[n' c0'] cols'] Hn c';
    csimpl in *; try done.
  injection Hn as -> Hn. destruct (decide (n' = name)); simpl.
  - f_equal. apply (f_equal length) in Hn. by rewrite !length_fmap in Hn.
  - f_equal. by apply IH.
Qed.

Lemma mapM_res_app {A B} (f : A -> res B) l1 l2 :
  mapM_res f (l1 ++ l2)
  = (ys ← mapM_res f l1; zs ← mapM_res f l2; Ok (ys ++ zs)).
Proof.
  induction l1 as [|x l1 IH]; simpl.
  - by destruct (mapM_res f l2).
  - destruct (f x) as [y|e]; simpl; [|done]. rewrite IH.
    destruct (mapM_res f l1) as [ys|e]; simpl; [|done].
    by destruct (mapM_res f l2).
Qed.

Lemma mapM_res_length {A B} (f : A -> res B) l ys :
  mapM_res f l = Ok ys -> length ys = length l.
Proof.
  revert ys. induction l as [|x l IH]; intros ys H; simpl in H; [by simplify_eq|].
  apply res_bind_Ok in H as (y & Hy & H).
  apply res_bind_Ok in H as (ys' & Hys & H). simplify_eq. simpl. f_equal. eauto.
Qed.

Lemma mapM_res_total {A B} (f : A -> res B) l :
  (forall x, x ∈ l -> exists y, f x = Ok y) -> exists ys, mapM_res f l = Ok ys.
Proof.
  induction l as [|x l IH]; intros Hf; [by eexists|].
  destruct (Hf x) as (y & Hy); [by left|].
  destruct IH as (ys & Hys); [intros z Hz; apply Hf; by right|].
  exists (y :: ys). simpl. by rewrite Hy, Hys.
Qed.

Lemma iloc_d_set_absent i name col d row x :
  name ∉ col_names d -> iloc i d = Ok row -> col !! i = Some x ->
  iloc i (d_set name col d) = Ok (row ++ [x]).
Proof.
  intros Hn Hrow Hx. unfold iloc, d_set in *. simpl.
  rewrite set_col_absent by done. rewrite mapM_res_app, Hrow. simpl.
  by rewrite Hx.
Qed.

Lemma iloc_total i d :
  rectangular d -> (i < length (d_index d))%nat ->
  exists row, iloc i d = Ok row /\ length row = length (d_columns d).
Proof.
  intros Hwf Hi. unfold iloc.
  destruct (mapM_res_total
              (fun c : string * list cell =>
                 match c.2 !! i with Some x => Ok x | None => Raise IndexError end)
              (d_columns d)) as (row & Hrow).
  - intros c Hc. apply (proj1 (Forall_forall _ _) Hwf) in Hc.
    destruct (lookup_lt_is_Some_2 c.2 i) as (x & ->); [lia | by eexists].
  - exists row. split; [done|]. by apply mapM_res_length in Hrow.
Qed.

Lemma rectangular_d_set name col d :
  rectangular d -> length col = length (d_index d) -> rectangular (d_set name col d).
Proof.
  unfold rectangular, d_set. simpl. intros Hwf Hlen.
  induction Hwf as [|[n c0] cols Hc Hwf IH]; simpl.
  - by repeat constructor.
  - destruct (decide (n = name)); constructor; done.
Qed.

Lemma surface_depth_length c n : length c = n -> length (surface_depth c n) = n.
Proof.
  intros Hc. unfold surface_depth.
  rewrite length_zip_with, length_map, length_replicate. lia.
Qed.

Section HeatContentRuns.
Variable pyl : list cell -> list cell -> list cell -> list cell -> res cell.

(** X10: on a temperature table with no column "0.45" [heat_content] raises
    KeyError. *)
Theorem heat_content_missing_sensor σ t d b td :
  σ !! t = Some (OFrame td) -> "0.45"%string ∉ col_names td ->
  heat_content pyl t d b σ = Raise KeyError.
Proof.
  intros Ht Hn. unfold heat_content, mbind, Py_bind.
  rewrite (load_frame_eq _ _ _ Ht). unfold d_get.
  by rewrite get_col_absent.
Qed.

(** The temperature table after a run, whether or not it is the depth table
    as well: the table before with its column "0" assigned. *)
Lemma heat_content_temp_after σ t d b H σ' td :
  heat_content pyl t d b σ = Ok (H, σ') -> σ !! t = Some (OFrame td) ->
  exists col bd dd3 h,
    σ' !! t = Some (OFrame (d_set "0" col td))
    /\ mapM_res (heat_content_row pyl (d_set "0" col td) dd3 bd)
                (seq 0 (length (d_index td))) = Ok h
    /\ H = mkSeries (d_index td) h.
Proof.
  intros Hrun Ht.
  apply heat_content_inv in Hrun
    as (td0 & c & dd0 & td2 & c2 & dd3 & td3 & bd & h & Hrun).
  cbv zeta in Hrun.
  destruct Hrun as (Ht0 & Hc & Hd0 & Ht2 & Hc2 & Hset & -> & Ht3 & Hb & Hloop & ->).
  rewrite Ht in Ht0. injection Ht0 as <-.
  assert (Hfin : exists col, td3 = d_set "0" col td).
  { destruct (decide (t = d)) as [<-|Hne].
    - rewrite lookup_insert_eq in Hd0, Ht2, Ht3.
      injection Hd0 as <-. injection Ht2 as <-. injection Ht3 as <-.
      apply d_loc_set_inv in Hset as (_ & z & Hz & ->).
      rewrite !d_set_d_set. by eexists.
    - rewrite lookup_insert_ne, lookup_insert_eq in Ht3 by done.
      injection Ht3 as <-. by eexists. }
  destruct Hfin as (col & ->).
  exists col, bd, dd3, h. split; [done|]. split; [|done].
  by rewrite d_index_d_set in Hloop.
Qed.

(** X11: the heat content that [heat_content] returns is indexed by the
    index of the temperature table and has one value per label. *)
Theorem heat_content_shape σ t d b H σ' td :
  heat_content pyl t d b σ = Ok (H, σ') -> σ !! t = Some (OFrame td) ->
  s_index H = d_index td /\ length (s_values H) = length (d_index td).
Proof.
  intros Hrun Ht.
  destruct (heat_content_temp_after _ _ _ _ _ _ _ Hrun Ht)
    as (col & bd & dd3 & h & _ & Hloop & ->).
  split; [done|]. simpl. apply mapM_res_length in Hloop.
  by rewrite Hloop, length_seq.
Qed.

(** X12: a second call of [heat_content] on the tables the first call left
    returns the same heat content and changes nothing more: the column "0" is
    assigned again, not added again. *)
Theorem heat_content_again σ t d b H σ' :
  heat_content pyl t d b σ = Ok (H, σ') -> t <> d ->
  heat_content pyl t d b σ' = Ok (H, σ').
Proof.
  intros Hrun Hne.
  destruct (heat_content_tables pyl σ t d b H σ' Hrun Hne)
    as (td & dd & c & Ht & Hd & Hc & Hix & Ht' & Hd').
  assert (Hrun1 := heat_content_run pyl σ t d b td dd c Ht Hd Hne Hc Hix).
  cbv zeta in Hrun1. rewrite Hrun in Hrun1.
  assert (Hc' : d_get "0.45" (d_set "0" c td) = Ok c)
    by (by rewrite d_get_d_set_ne).
  assert (Hrun2 := heat_content_run pyl σ' t d b _ _ c Ht' Hd' Hne Hc' Hix).
  cbv zeta in Hrun2.
  rewrite !d_index_d_set, !d_set_d_set in Hrun2.
  rewrite (insert_id σ' t) in Hrun2 by done.
  rewrite (insert_id σ' d) in Hrun2 by done.
  rewrite Hrun2. clear Hrun2 Ht' Hd' Hrun. revert Hrun1.
  destruct (<[d:=_]> (<[t:=_]> σ) !! b) as [[s0|bd]|] eqn:Hb; try done.
  destruct (mapM_res _ _) as [h|e] eqn:Hloop; [|done].
  intros [= -> ->]. by rewrite Hb, Hloop.
Qed.

Lemma forallb_isna_app row x :
  forallb isna row = false -> forallb isna (row ++ [x]) = false.
Proof.
  induction row as [|c row IH]; [done|]. simpl.
  destruct (isna c); simpl; [exact IH | done].
Qed.

(** X13: at a timestamp with a reading, on tables that have no column "0"
    yet, [heat_content] hands to the external routine the readings of the row
    followed by the reading at 0.45 m, the area and depth columns of the
    bathymetric curve, and the depths of the row followed by 0 (by NaN when the
    reading at 0.45 m is missing); the routine returned on them, and its value
    is the heat content at that timestamp. *)
Theorem heat_content_profile σ t d b H σ' td dd bd c area depth i trow drow x :
  heat_content pyl t d b σ = Ok (H, σ') ->
  σ !! t = Some (OFrame td) -> σ !! d = Some (OFrame dd) ->
  σ !! b = Some (OFrame bd) ->
  t <> d -> b <> t -> b <> d ->
  "0"%string ∉ col_names td -> "0"%string ∉ col_names dd ->
  d_get "0.45" td = Ok c ->
  d_get "Area_m2" bd = Ok area -> d_get "Depth_m" bd = Ok depth ->
  (i < length (d_index td))%nat ->
  iloc i td = Ok trow -> iloc i dd = Ok drow -> c !! i = Some x ->
  forallb isna trow = false ->
  exists v,
    pyl (trow ++ [x]) area depth (drow ++ [if isna x then None else Some 0])
    = Ok v
    /\ s_values H !! i = Some v.
Proof.
  intros Hrun Ht Hd Hb Hne Hbt Hbd Hnt Hnd Hc Harea Hdepth Hi Htrow Hdrow Hx Hna.
  destruct (heat_content_tables pyl σ t d b H σ' Hrun Hne)
    as (td0 & dd0 & c0 & Ht0 & Hd0 & Hc0 & Hix & _).
  rewrite Ht in Ht0. injection Ht0 as <-.
  rewrite Hd in Hd0. injection Hd0 as <-.
  rewrite Hc in Hc0. injection Hc0 as <-.
  rewrite (heat_content_run pyl σ t d b td dd c Ht Hd Hne Hc Hix) in Hrun.
  cbv zeta in Hrun.
  rewrite !lookup_insert_ne, Hb in Hrun by done.
  destruct (mapM_res _ _) as [h|e] eqn:Hloop; [|done].
  injection Hrun as <- _. simpl.
  destruct (mapM_res_lookup _ _ _ i i Hloop) as (y & Hy & ->).
  { by apply lookup_seq_lt. }
  unfold heat_content_row in Hy.
  assert (Hsd : surface_depth c (length (d_index dd)) !! i
                = Some (if isna x then None else Some 0)).
  { unfold surface_depth. apply lookup_zip_with_Some.
    exists (isna x), (Some 0). split; [done|]. split.
    - by rewrite list_lookup_fmap, Hx.
    - apply lookup_replicate_2. by rewrite <- Hix. }
  rewrite (iloc_d_set_absent i "0" _ dd drow _ Hnd Hdrow Hsd) in Hy.
  rewrite (iloc_d_set_absent i "0" c td trow x Hnt Htrow Hx) in Hy.
  simpl in Hy.
  assert (Hlen : length drow = length trow).
  { destruct (decide (length drow = length trow)) as [|Hl]; [done|].
    rewrite decide_False in Hy; [done|]. rewrite !length_app. simpl. lia. }
  rewrite decide_True in Hy by (rewrite !length_app; simpl; lia).
  rewrite forallb_isna_app in Hy by done.
  rewrite Harea, Hdepth in Hy. simpl in Hy. by exists y.
Qed.

(** X14: [heat_content] returns on three distinct tables when the
    temperature and the depth table have the same index and the same column
    names, the temperature table has the column "0.45", the bathymetric
    curve has its two columns, and the external routine returns on every
    profile over that curve. *)
Theorem heat_content_returns σ t d b td dd bd c area depth :
  σ !! t = Some (OFrame td) -> σ !! d = Some (OFrame dd) ->
  σ !! b = Some (OFrame bd) ->
  t <> d -> b <> t -> b <> d ->
  rectangular td -> rectangular dd ->
  d_index td = d_index dd -> col_names td = col_names dd ->
  d_get "0.45" td = Ok c ->
  d_get "Area_m2" bd = Ok area -> d_get "Depth_m" bd = Ok depth ->
  (forall temp z, exists v, pyl temp area depth z = Ok v) ->
  exists H σ', heat_content pyl t d b σ = Ok (H, σ').
Proof.
  intros Ht Hd Hb Hne Hbt Hbd Hwt Hwd Hix Hnames Hc Harea Hdepth Hpyl.
  rewrite (heat_content_run pyl σ t d b td dd c Ht Hd Hne Hc Hix). cbv zeta.
  rewrite !lookup_insert_ne, Hb by done.
  assert (Hlc : length c = length (d_index td)).
  { unfold d_get in Hc. destruct (get_col_present "0.45" (d_columns td)) as (c' & Hc' & Hin).
    - destruct (decide ("0.45"%string ∈ (d_columns td).*1)) as [|Hn]; [done|].
      by rewrite get_col_absent in Hc.
    - rewrite Hc in Hc'. injection Hc' as <-.
      by apply (proj1 (Forall_forall _ _) Hwt) in Hin. }
  destruct (mapM_res_total
              (heat_content_row pyl (d_set "0" c td)
                 (d_set "0" (surface_depth c (length (d_index dd))) dd) bd)
              (seq 0 (length (d_index td)))) as (h & Hh).
  - intros i Hin. apply elem_of_seq in Hin as [_ Hi]. simpl in Hi.
    destruct (iloc_total i (d_set "0" c td)) as (trow & Htrow & Hlt);
      [by apply rectangular_d_set | done |].
    destruct (iloc_total i (d_set "0" (surface_depth c (length (d_index dd))) dd))
      as (drow & Hdrow & Hld).
    { apply rectangular_d_set; [done|]. apply surface_depth_length. by rewrite <- Hix. }
    { simpl. by rewrite <- Hix. }
    unfold heat_content_row. rewrite Hdrow, Htrow. simpl.
    rewrite decide_True.
    + destruct (forallb isna trow); [by eexists|].
      rewrite Harea, Hdepth. simpl. apply Hpyl.
    + rewrite Hld, Hlt. simpl. symmetry. by apply set_col_length.
  - rewrite Hh. by eexists _, _.
Qed.
End HeatContentRuns.

(** ** The heat rate and the flow *)

(** X15: the heat rate has the index of the heat content; its first entry is
    missing, and every later entry between two defined heat contents is their
    difference divided by the seconds really elapsed between the two labels. *)
Theorem heat_rate_elapsed heatc :
  exists dhdt,
    heat_rate heatc = Ok dhdt
    /\ s_index dhdt = s_index heatc
    /\ (forall h t, s_values heatc !! 0%nat = Some h -> s_index heatc !! 0%nat = Some t ->
          s_values dhdt !! 0%nat = Some None)
    /\ forall i h0 h1 t0 t1,
         s_values heatc !! i = Some (Some h0) ->
         s_values heatc !! S i = Some (Some h1) ->
         s_index heatc !! i = Some t0 -> s_index heatc !! S i = Some t1 ->
         t0 <> t1 ->
         s_values dhdt !! S i = Some (Some ((h1 - h0) / (IZR (t1 - t0) / 1e9))).
Proof.
  rewrite heat_rate_eq. eexists. split; [reflexivity|]. split; [reflexivity|].
  simpl. split.
  - intros h t Hh Ht. destruct (s_values heatc) as [|a l]; [done|].
    destruct (s_index heatc) as [|b ix]; [done|]. reflexivity.
  - intros i h0 h1 t0 t1 H0 H1 T0 T1 Hne.
    apply lookup_zip_with_Some.
    exists (Some (h1 - h0)), (Some (IZR (t1 - t0) / 1e9)). split; [|split].
    + simpl. rewrite decide_False; [done|].
      assert (IZR (t1 - t0) <> 0).
      { intros Hz. apply eq_IZR_R0 in Hz. lia. }
      intros Hq. apply H. lra.
    + by rewrite (diff_lookup _ i (Some h0) (Some h1)).
    + by apply elapsed_lookup.
Qed.

Section Flow.
Variable dens0 : R -> R.

(** X16: where the heat content is the same at two successive labels and the
    net flux is zero, the heat rate, the residual power and the inferred flow
    are zero. *)
Theorem no_spurious_flow heatc hnet bath area A td t0 M i h ta tb :
  s_index heatc = s_index hnet ->
  d_get "Area_m2" bath = Ok area -> nanmax area = Some A ->
  d_get "0" td = Ok t0 -> nanmax t0 = Some M -> 0 < M ->
  (forall T, 0 < dens0 T) ->
  s_values heatc !! i = Some (Some h) -> s_values heatc !! S i = Some (Some h) ->
  s_index heatc !! i = Some ta -> s_index heatc !! S i = Some tb -> ta <> tb ->
  s_values hnet !! S i = Some (Some 0) ->
  exists dhdt dhw wtemp wheat flow,
    residual_power heatc hnet bath = Ok (dhdt, dhw)
    /\ flow_inference dens0 td dhw = Ok (wtemp, wheat, flow)
    /\ s_values dhdt !! S i = Some (Some 0)
    /\ s_values dhw !! S i = Some (Some 0)
    /\ s_values flow !! S i = Some (Some 0).
Proof.
  intros Hix Harea Hmax Ht0 HM HMpos Hdens H0 H1 T0 T1 Hne Hnet.
  assert (Hrate : zip_with cdiv (diff (s_values heatc)) (elapsed (s_index heatc)) !! S i
                  = Some (Some 0)).
  { apply lookup_zip_with_Some.
    exists (Some (h - h)), (Some (IZR (tb - ta) / 1e9)). split; [|split].
    - simpl. rewrite decide_False.
      + do 2 f_equal. unfold Rdiv. rewrite Rminus_diag. by rewrite Rmult_0_l.
      + assert (IZR (tb - ta) <> 0).
        { intros Hz. apply eq_IZR_R0 in Hz. lia. }
        intros Hq. apply H. lra.
    - by rewrite (diff_lookup _ i (Some h) (Some h)).
    - by apply elapsed_lookup. }
  unfold residual_power. rewrite heat_rate_eq. simpl.
  unfold s_sub. rewrite s_binop_eq by done. simpl. rewrite Harea. simpl.
  assert (Hdhw : map (fun c => lift2 Rmult c (nanmax area))
                   (map (lift1 Ropp)
                      (zip_with (lift2 Rminus)
                         (zip_with cdiv (diff (s_values heatc)) (elapsed (s_index heatc)))
                         (s_values hnet))) !! S i = Some (Some 0)).
  { rewrite !list_lookup_fmap.
    rewrite (proj2 (lookup_zip_with_Some _ _ _ (S i) (Some (0 - 0)))).
    - simpl. rewrite Hmax. simpl. do 2 f_equal. lra.
    - exists (Some 0), (Some 0). by split. }
  unfold flow_inference, flow_temp. rewrite Ht0. simpl. rewrite HM.
  eexists _, _, _, _, _. split; [reflexivity|]. split; [reflexivity|].
  split; [exact Hrate|]. split; [exact Hdhw|]. simpl.
  assert (Hi : (S i < length (map (fun c => lift2 Rmult c (nanmax area))
                   (map (lift1 Ropp)
                      (zip_with (lift2 Rminus)
                         (zip_with cdiv (diff (s_values heatc)) (elapsed (s_index heatc)))
                         (s_values hnet)))))%nat).
  { by apply lookup_lt_Some in Hdhw. }
  destruct (linspace_lookup 2 M _ (S i) Hi) as (T & HT & _).
  assert (HTpos : 0 < T) by (eapply (linspace_pos 2 M); [lra | done | exact HT]).
  assert (Hw : 0 < dens0 T * 4186 * T).
  { specialize (Hdens T). apply Rmult_lt_0_compat; [|done]. lra. }
  apply lookup_zip_with_Some. exists (Some 0), (Some (dens0 T * 4186 * T)).
  split; [|split; [exact Hdhw|]].
  - simpl. rewrite decide_False by lra. do 2 f_equal. unfold Rdiv. by rewrite Rmult_0_l.
  - by rewrite !list_lookup_fmap, HT.
Qed.

Lemma nanmax_all_missing (l : list cell) :
  Forall (fun c => c = None) l -> nanmax l = None.
Proof. induction 1 as [|c l -> _ IH]; [done | simpl; by rewrite IH]. Qed.

(** X17: when the surface temperature column is missing throughout, the
    assumed inflow temperature, its heat per volume and the flow are missing
    at every label. *)
Theorem flow_undefined td dhw t0 :
  d_get "0" td = Ok t0 -> Forall (fun c => c = None) t0 ->
  exists wtemp wheat flow,
    flow_inference dens0 td dhw = Ok (wtemp, wheat, flow)
    /\ forall i, (i < length (s_values dhw))%nat ->
         s_values wtemp !! i = Some None
         /\ s_values wheat !! i = Some None
         /\ s_values flow !! i = Some None.
Proof.
  intros Ht0 Hna. unfold flow_inference, flow_temp. rewrite Ht0. simpl.
  rewrite (nanmax_all_missing _ Hna). simpl.
  eexists _, _, _. split; [reflexivity|]. simpl. intros i Hi.
  assert (Hr : replicate (length (s_values dhw)) (@None R) !! i = Some None)
    by (by apply lookup_replicate_2).
  split; [exact Hr|].
  assert (Hw : map (fun c => lift2 Rmult (lift2 Rmult (lift1 dens0 c) (Some 4186)) c)
                 (replicate (length (s_values dhw)) None) !! i = Some None)
    by (by rewrite list_lookup_fmap, Hr).
  split; [exact Hw|].
  destruct (lookup_lt_is_Some_2 _ _ Hi) as (q & Hq).
  apply lookup_zip_with_Some. exists q, None. split; [by destruct q|]. by split.
Qed.

(** X18: on a temperature table without the column "0" that [heat_content]
    adds, the flow inference raises KeyError. *)
Theorem flow_needs_surface_column td dhw :
  "0"%string ∉ col_names td -> flow_inference dens0 td dhw = Raise KeyError.
Proof.
  intros Hn. unfold flow_inference, flow_temp, d_get.
  by rewrite get_col_absent.
Qed.
End Flow.

(** ** The whole of [main], once more *)

Lemma s_binop_inv f a b r :
  s_binop f a b = Ok r ->
  s_index a = s_index b
  /\ r = mkSeries (s_index a) (zip_with f (s_values a) (s_values b)).
Proof.
  unfold s_binop. destruct (decide (s_index a = s_index b)); [|done].
  intros H. by simplify_eq.
Qed.

(** X19: in a run of [main] on two distinct tables the temperature table
    comes back with the column "0" a copy of its column "0.45", the residual
    power and the flow are indexed as the temperature table, and the flow is
    the residual power divided by the heat per volume along the line from 2 to
    the largest reading at 0.45 m. *)
Theorem main_flow_ramp pyl dens0 t d b hnet dhdt dhw flow σ σ' td :
  main pyl dens0 t d b hnet σ = Ok ((dhdt, dhw, flow), σ') ->
  σ !! t = Some (OFrame td) -> t <> d ->
  exists c,
    d_get "0.45" td = Ok c
    /\ σ' !! t = Some (OFrame (d_set "0" c td))
    /\ s_index dhw = d_index td /\ s_index flow = d_index td
    /\ s_values flow
       = zip_with cdiv (s_values dhw)
           (map (fun T => lift2 Rmult (lift2 Rmult (lift1 dens0 T) (Some 4186)) T)
                (linspace_cell 2 (nanmax c) (length (s_values dhw)))).
Proof.
  intros Hrun Ht Hne.
  apply main_inv in Hrun as (heatc & bd & td' & wtemp & wheat & Hhc & Hb & Ht' & Hres & Hflow).
  destruct (heat_content_tables pyl σ t d b heatc σ' Hhc Hne)
    as (td0 & dd & c & Ht0 & Hd & Hc & Hix & Ht'' & Hd').
  rewrite Ht in Ht0. injection Ht0 as <-.
  rewrite Ht' in Ht''. injection Ht'' as ->.
  assert (Hi : s_index heatc = d_index td).
  { destruct (heat_content_temp_after pyl σ t d b heatc σ' td Hhc Ht)
      as (col & bd0 & dd3 & h & _ & _ & ->). reflexivity. }
  exists c. split; [done|]. split; [done|].
  unfold residual_power in Hres.
  apply res_bind_Ok in Hres as (r & Hr & Hres). rewrite heat_rate_eq in Hr.
  injection Hr as <-.
  apply res_bind_Ok in Hres as (x & Hx & Hres).
  apply s_binop_inv in Hx as [_ ->].
  apply res_bind_Ok in Hres as (area & Ha & Hres). injection Hres as <- <-.
  unfold flow_inference, flow_temp in Hflow. rewrite d_get_d_set_eq in Hflow.
  simpl in Hflow. injection Hflow as <- <- <-. simpl. by rewrite Hi.
Qed.

Lemma ex_main_run :
  exists dhdt dhw flow,
    main ex_pylake ex_dens0 1%positive 2%positive 3%positive ex_calm ex_tables
    = Ok ((dhdt, dhw, flow), ex_tables_after).
Proof.
  unfold main, mbind, Py_bind. rewrite ex_tables_run.
  eexists _, _, _. reflexivity.
Qed.

Lemma main_flow_ramp_witness :
  exists dhdt dhw flow c,
    main ex_pylake ex_dens0 1%positive 2%positive 3%positive ex_calm ex_tables
    = Ok ((dhdt, dhw, flow), ex_tables_after)
    /\ d_get "0.45" ex_temp = Ok c
    /\ s_index flow = d_index ex_temp.
Proof.
  destruct ex_main_run as (dhdt & dhw & flow & Hrun).
  destruct (main_flow_ramp ex_pylake ex_dens0 1 2 3 ex_calm dhdt dhw flow
              ex_tables ex_tables_after ex_temp Hrun)
    as (c & Hc & _ & _ & Hi & _); [reflexivity | done |].
  exists dhdt, dhw, flow, c. by repeat split.
Defined.

(** ** The properties above on the sample data *)

Lemma absorved_lw_enters_witness :
  0 <= Lhb.absorved_lw 10 0.8
  /\ Lhb.absorved_lw 10 0.8 <= Lhb.absorved_lw 10 0.9.
Proof. apply (absorved_lw_enters 10 0.8 0.9); lra. Defined.

Lemma atm_emmissivity_clouds_witness :
  exists e1 e2,
    Lhb.atm_emmissivity 10 0 9.8 = Some e1
    /\ Lhb.atm_emmissivity 10 0.5 9.8 = Some e2
    /\ 0 < e1 /\ e1 <= e2.
Proof. apply (atm_emmissivity_clouds 10 0 0.5 9.8); lra. Defined.

Lemma atm_emmissivity_negative_pressure_witness :
  Lhb.atm_emmissivity 10 0 (-1) = None.
Proof. apply (atm_emmissivity_negative_pressure 10 0 (-1)); lra. Defined.

Lemma heat_balance_sum_witness :
  exists hnet,
    LhbSeries.heat_balance 1%positive 2%positive 3%positive 4%positive 5%positive
      ex_fluxes = Ok (hnet, ex_fluxes)
    /\ s_values hnet !! 0%nat = Some (Some (Lhb.heat_balance 0 300 (-350) (-20) (-10)))
    /\ s_values hnet !! 1%nat = Some None.
Proof.
  destruct (heat_balance_sum ex_fluxes 1 2 3 4 5
              (mkSeries ex_hour [Some 0; Some 700])
              (mkSeries ex_hour [Some 300; None])
              (mkSeries ex_hour [Some (-350); Some (-360)])
              (mkSeries ex_hour [Some (-20); Some (-30)])
              (mkSeries ex_hour [Some (-10); Some 5]))
    as (hnet & Hrun & _ & Hv); try reflexivity.
  exists hnet. split; [exact Hrun|]. split.
  - apply (Hv 0%nat (Some 0) (Some 300) (Some (-350)) (Some (-20)) (Some (-10)));
      reflexivity.
  - apply (Hv 1%nat (Some 700) None (Some (-360)) (Some (-30)) (Some 5));
      reflexivity.
Defined.

Lemma heat_content_missing_sensor_witness :
  heat_content ex_pylake 1%positive 2%positive 3%positive ex_deep = Raise KeyError.
Proof.
  apply (heat_content_missing_sensor ex_pylake ex_deep 1 2 3 ex_deep_temp).
  - reflexivity.
  - unfold col_names. simpl. rewrite !not_elem_of_cons. repeat split; try done.
    apply not_elem_of_nil.
Defined.

Lemma heat_content_shape_witness :
  s_index (mkSeries ex_hour [None; Some 1]) = d_index ex_temp
  /\ length (s_values (mkSeries ex_hour [None; Some 1])) = length (d_index ex_temp).
Proof.
  apply (heat_content_shape ex_pylake ex_tables 1 2 3 _ ex_tables_after ex_temp
           ex_tables_run).
  reflexivity.
Defined.

Lemma heat_content_again_witness :
  heat_content ex_pylake 1%positive 2%positive 3%positive ex_tables_after
  = Ok (mkSeries ex_hour [None; Some 1], ex_tables_after).
Proof.
  apply (heat_content_again ex_pylake ex_tables 1 2 3 _ _ ex_tables_run). done.
Defined.

Lemma heat_content_profile_witness :
  exists v,
    ex_pylake ([Some 6; Some 5] ++ [Some 6])
      [Some 10000; Some 6000; Some 1000] [Some 0; Some 1; Some 2]
      ([Some 0.45; Some 1.5] ++ [if isna (Some 6) then None else Some 0])
    = Ok v
    /\ s_values (mkSeries ex_hour [None; Some 1]) !! 1%nat = Some v.
Proof.
  apply (heat_content_profile ex_pylake ex_tables 1 2 3 _ ex_tables_after
           ex_temp ex_depth ex_bath [None; Some 6] _ _ 1 _ _ (Some 6)
           ex_tables_run); try reflexivity; try done.
  - unfold col_names. simpl. rewrite !not_elem_of_cons. repeat split; try done.
    apply not_elem_of_nil.
  - unfold col_names. simpl. rewrite !not_elem_of_cons. repeat split; try done.
    apply not_elem_of_nil.
  - simpl. lia.
Defined.

Lemma heat_content_returns_witness :
  exists H σ',
    heat_content ex_pylake 1%positive 2%positive 3%positive ex_tables = Ok (H, σ').
Proof.
  apply (heat_content_returns ex_pylake ex_tables 1 2 3 ex_temp ex_depth ex_bath
           [None; Some 6] [Some 10000; Some 6000; Some 1000]
           [Some 0; Some 1; Some 2]); try reflexivity; try done.
  - repeat constructor.
  - repeat constructor.
  - intros temp z. by eexists.
Defined.

Lemma no_spurious_flow_witness :
  exists dhdt dhw wtemp wheat flow,
    residual_power ex_still ex_calm ex_bath = Ok (dhdt, dhw)
    /\ flow_inference ex_dens0 ex_temp_after dhw = Ok (wtemp, wheat, flow)
    /\ s_values dhdt !! 1%nat = Some (Some 0)
    /\ s_values dhw !! 1%nat = Some (Some 0)
    /\ s_values flow !! 1%nat = Some (Some 0).
Proof.
  apply (no_spurious_flow ex_dens0 ex_still ex_calm ex_bath
           [Some 10000; Some 6000; Some 1000] 10000 ex_temp_after
           [None; Some 6] 6 0 10 0%Z 3600000000000%Z); try reflexivity; try done.
  - apply (nanmax_surface_area [Some 0; Some 1; Some 2]);
      [exact ex_bath_nonincreasing | exact ex_bath_from_surface |].
    simpl. by rewrite decide_True.
  - lra.
  - intros T. unfold ex_dens0. lra.
Defined.

Lemma flow_undefined_witness :
  exists wtemp wheat flow,
    flow_inference ex_dens0 ex_gap_temp_after ex_heatc = Ok (wtemp, wheat, flow)
    /\ forall i, (i < length (s_values ex_heatc))%nat ->
         s_values wtemp !! i = Some None
         /\ s_values wheat !! i = Some None
         /\ s_values flow !! i = Some None.
Proof.
  apply (flow_undefined ex_dens0 ex_gap_temp_after ex_heatc [None]).
  - reflexivity.
  - repeat constructor.
Defined.

Lemma flow_needs_surface_column_witness :
  flow_inference ex_dens0 ex_temp ex_heatc = Raise KeyError.
Proof.
  apply (flow_needs_surface_column ex_dens0 ex_temp ex_heatc).
  unfold col_names. simpl. rewrite !not_elem_of_cons. repeat split; try done.
  apply not_elem_of_nil.
Defined.
